(** * Instagram auto-responder (bot.py): model and verified properties

    A shallow embedding of [src/bot.py].  The bot object and the platform
    client it owns are records; every method of [InstagramBot] is a
    computation in a small state-and-exception monad over the bot, so that
    an attribute assigned before an exception is raised stays assigned, as
    in Python.  The platform (instagrapi, the file system, the operator's
    keyboard) is an oracle: what each call returns or raises is a function
    of the number of calls made so far. *)

From stdpp Require Import base gmap sets list strings.
From Stdlib Require Import ZArith Lia Ascii.

#[local] Set Warnings "-clear-no-such-hyp".

(** ** Identifiers and platform data *)

(** Message, user and thread identifiers are opaque to the bot: it only
    compares them with [==], hashes them into a set and tests the thread
    identifier for truthiness.  Message and user identifiers are integers
    here; the thread identifier is a string, whose empty value is falsy. *)
Abbreviation MsgId := Z (only parsing).
Abbreviation UserId := Z (only parsing).
Abbreviation ThreadId := string (only parsing).

(** [datetime]: the wall-clock reading in microseconds since the epoch
    and, for an aware value, the UTC offset of its zone in microseconds. *)
Record datetime := { wall_us : Z; tzinfo : option Z }.

(** [message_time.replace(tzinfo=datetime.timezone.utc)] *)
Definition replace_tzinfo_utc (d : datetime) : datetime :=
  {| wall_us := wall_us d; tzinfo := Some 0%Z |}.

(** The instant of an aware datetime on the UTC time line. *)
Definition utc_us (d : datetime) : Z := (wall_us d - default 0 (tzinfo d))%Z.

Module UserShort.
Record t := { pk : UserId }.
End UserShort.

Module DirectMessage.
Record t := { id : MsgId; user_id : UserId; text : string; timestamp : datetime }.
End DirectMessage.

Module DirectThread.
Record t := { id : ThreadId; users : list UserShort.t; messages : list DirectMessage.t }.
End DirectThread.

(** ** Exceptions and results *)

(** The subclasses of [Exception] the program can meet: the client's
    [ChallengeRequired], the [ValueError] of [int], and any other error of
    the client, the file system or [input].  The operator's interrupt is
    not an [Exception] and is left out. *)
Inductive exn :=
| ChallengeRequired (msg : string)
| ValueError (msg : string)
| OtherError (msg : string).

Inductive result (A : Type) :=
| Ok (a : A)
| Raise (e : exn).
Arguments Ok {A} a.
Arguments Raise {A} e.

Definition is_ok {A} (r : result A) : bool :=
  match r with Ok _ => true | Raise _ => false end.

Definition is_ChallengeRequired (e : exn) : bool :=
  match e with ChallengeRequired _ => true | _ => false end.

(** ** The platform as an oracle *)

(** A call the program makes on its collaborators. *)
Inductive Call :=
| CallLoadSettings (path : string)
| CallLogin (user pass : string)
| CallDumpSettings (path : string)
| CallInput (prompt : string)
| CallChallengeCodeHandler (user code : string)
| CallUserInfoByUsername (name : string)
| CallDirectThreads (amount : nat)
| CallDirectThread (tid : ThreadId)
| CallDirectSend (text : string) (user_ids : list UserId).

(** What the outside world answers.  The first argument of every field is
    the number of calls made before this one. *)
Record Platform := {
  session_file_exists : bool;
  load_settings_at : nat → result unit;
  login_at : nat → result unit;
  dump_settings_at : nat → result unit;
  input_at : nat → result string;
  challenge_code_handler_at : nat → string → result unit;
  user_info_by_username_at : nat → string → result UserShort.t;
  inbox_at : nat → result (list DirectThread.t);
  direct_thread_at : nat → ThreadId → result DirectThread.t;
  direct_send_at : nat → string → list UserId → result unit
}.

(** ** The bot object *)

(** The client: the logged-in account's user id and the calls made so
    far, most recent first, each with whether it returned normally. *)
Record Client := { user_id : UserId; history : list (Call * bool) }.

Record InstagramBot := {
  client : Client;
  username : string;
  password : string;
  target_username : string;
  response_message : string;
  target_user_id : option UserId;
  thread_id : option ThreadId;
  processed_messages : gset MsgId
}.

(** [InstagramBot.__init__] *)
Definition init (self_id : UserId)
    (username password target_username response_message : string) : InstagramBot :=
  {| client := {| user_id := self_id; history := [] |};
     username := username;
     password := password;
     target_username := target_username;
     response_message := response_message;
     target_user_id := None;
     thread_id := None;
     processed_messages := ∅ |}.

Definition with_client (c : Client) (b : InstagramBot) : InstagramBot :=
  {| client := c; username := username b; password := password b;
     target_username := target_username b; response_message := response_message b;
     target_user_id := target_user_id b; thread_id := thread_id b;
     processed_messages := processed_messages b |}.

Definition with_target_user_id (u : option UserId) (b : InstagramBot) : InstagramBot :=
  {| client := client b; username := username b; password := password b;
     target_username := target_username b; response_message := response_message b;
     target_user_id := u; thread_id := thread_id b;
     processed_messages := processed_messages b |}.

Definition with_thread_id (t : option ThreadId) (b : InstagramBot) : InstagramBot :=
  {| client := client b; username := username b; password := password b;
     target_username := target_username b; response_message := response_message b;
     target_user_id := target_user_id b; thread_id := t;
     processed_messages := processed_messages b |}.

Definition with_processed_messages (s : gset MsgId) (b : InstagramBot) : InstagramBot :=
  {| client := client b; username := username b; password := password b;
     target_username := target_username b; response_message := response_message b;
     target_user_id := target_user_id b; thread_id := thread_id b;
     processed_messages := s |}.

(** The messages delivered so far: the [direct_send] calls that returned,
    most recent first. *)
Fixpoint sends_of (h : list (Call * bool)) : list (string * list UserId) :=
  match h with
  | [] => []
  | (CallDirectSend text user_ids, true) :: h' => (text, user_ids) :: sends_of h'
  | _ :: h' => sends_of h'
  end.

Definition sent (b : InstagramBot) : list (string * list UserId) :=
  sends_of (history (client b)).

(** ** Computations on the bot: state and exceptions *)

Definition M (A : Type) : Type := InstagramBot → result A * InstagramBot.

Definition ret {A} (a : A) : M A := λ b, (Ok a, b).

Definition raise {A} (e : exn) : M A := λ b, (Raise e, b).

Definition bind {A B} (m : M A) (k : A → M B) : M B := λ b,
  match m b with
  | (Ok a, b') => k a b'
  | (Raise e, b') => (Raise e, b')
  end.

Notation "'let*' x ':=' m 'in' k" := (bind m (λ x, k))
  (at level 10, x name, m at level 100, k at level 200).
Notation "m ';;;' k" := (bind m (λ _, k))
  (at level 100, k at level 200, right associativity).

Definition get : M InstagramBot := λ b, (Ok b, b).

Definition modify (f : InstagramBot → InstagramBot) : M unit := λ b, (Ok tt, f b).

(** [try: body  except c1: h1  except c2: h2 ...]: the first clause
    whose class matches handles the exception; an exception no clause
    matches, or one raised by a handler, goes on to the enclosing [try]. *)
Fixpoint handle {A} (clauses : list ((exn → bool) * (exn → M A))) (e : exn) : M A :=
  match clauses with
  | [] => raise e
  | (matching, handler) :: clauses' =>
      if matching e then handler e else handle clauses' e
  end.

Definition try_except {A} (body : M A) (clauses : list ((exn → bool) * (exn → M A))) : M A :=
  λ b, match body b with
       | (Ok a, b') => (Ok a, b')
       | (Raise e, b') => handle clauses e b'
       end.

(** Every [exn] is an [Exception]: [except Exception] matches them all. *)
Definition Exception (e : exn) : bool := true.

(** [for x in l: body x] *)
Fixpoint for_each {A} (body : A → M unit) (l : list A) : M unit :=
  match l with
  | [] => ret tt
  | x :: l' => body x ;;; for_each body l'
  end.

(** The bot after one more call on a collaborator has been recorded. *)
Definition record_call (c : Call) (ok : bool) (b : InstagramBot) : InstagramBot :=
  with_client {| user_id := user_id (client b);
                 history := (c, ok) :: history (client b) |} b.

(** The number of calls made so far. *)
Definition calls (b : InstagramBot) : nat := length (history (client b)).

(** A call on a collaborator: the oracle answers for the current call
    count, and the call is recorded whether it returns or raises. *)
Definition call {A} (c : Call) (answer : nat → result A) : M A := λ b,
  let r := answer (calls b) in (r, record_call c (is_ok r) b).

Section Bot.
Context (P : Platform).

Definition load_settings (path : string) : M unit :=
  call (CallLoadSettings path) (load_settings_at P).
Definition client_login (user pass : string) : M unit :=
  call (CallLogin user pass) (login_at P).
Definition dump_settings (path : string) : M unit :=
  call (CallDumpSettings path) (dump_settings_at P).
Definition input (prompt : string) : M string :=
  call (CallInput prompt) (input_at P).
Definition challenge_code_handler (user code : string) : M unit :=
  call (CallChallengeCodeHandler user code) (λ n, challenge_code_handler_at P n code).
Definition user_info_by_username (name : string) : M UserShort.t :=
  call (CallUserInfoByUsername name) (λ n, user_info_by_username_at P n name).
(** [direct_threads(amount)]: at most [amount] threads, most recent first. *)
Definition direct_threads (amount : nat) : M (list DirectThread.t) :=
  call (CallDirectThreads amount)
       (λ n, match inbox_at P n with
             | Ok l => Ok (take amount l)
             | Raise e => Raise e
             end).
Definition direct_thread (tid : ThreadId) : M DirectThread.t :=
  call (CallDirectThread tid) (λ n, direct_thread_at P n tid).
Definition direct_send (text : string) (user_ids : list UserId) : M unit :=
  call (CallDirectSend text user_ids) (λ n, direct_send_at P n text user_ids).
End Bot.

(** ** The set of processed message ids *)

(** [processed_messages] is a Python [set].  Membership, [add] and [len]
    are those of a finite set.  [list(s)] enumerates the elements in the
    order of the hash table, which the language leaves to the
    implementation: all the program may rely on is that every element
    comes exactly once. *)
Class PySetOrder := {
  set_to_list : gset MsgId → list MsgId;
  set_to_list_perm : ∀ s, set_to_list s ≡ₚ elements s
}.

(** [l[-n:]] *)
Definition last_n {A} (n : nat) (l : list A) : list A := drop (length l - n) l.

(** [self.processed_messages.add(message_id)] *)
Definition add_processed (message_id : MsgId) : M unit :=
  modify (λ b, with_processed_messages ({[message_id]} ∪ processed_messages b) b).

(** [not self.thread_id]: [None] and the empty string are falsy. *)
Definition falsy (t : option ThreadId) : bool :=
  match t with
  | None => true
  | Some s => bool_decide (s = EmptyString)
  end.

(** Five minutes, in microseconds.  [total_seconds()] divides the
    microsecond count by 10^6 in floating point with correct rounding;
    as 300 is a float and the doubles near it are far closer than a
    microsecond apart, [time_diff > 300] holds exactly when the count
    exceeds 300 * 10^6. *)
Definition five_minutes_us : Z := 300000000.

(** Lines 190-196: the age of a message in microseconds; a naive
    timestamp is read as UTC. *)
Definition time_diff_us (current_time : Z) (message : DirectMessage.t) : Z :=
  let message_time := DirectMessage.timestamp message in
  let message_time :=
    if tzinfo message_time is None
    then replace_tzinfo_utc message_time else message_time in
  (current_time - utc_us message_time)%Z.

Section Poller.
Context (P : Platform) `{PySetOrder}.

(** Lines 213-215: keep only the last 100 ids of [list(processed_messages)]. *)
Definition trim_processed : M unit :=
  let* b := get in
  if decide (100 < size (processed_messages b)) then
    modify (with_processed_messages
              (list_to_set (last_n 100 (set_to_list (processed_messages b)))))
  else ret tt.

(** The body of the loop of [check_and_respond] (lines 176-215);
    [continue] ends the body. *)
Definition process_message (current_time : Z) (message : DirectMessage.t) : M unit :=
  let* b := get in
  let message_id := DirectMessage.id message in
  if bool_decide (message_id ∈ processed_messages b) then ret tt
  else if bool_decide (DirectMessage.user_id message = user_id (client b)) then
    add_processed message_id
  else
    match target_user_id b with
    | Some target =>
        if bool_decide (DirectMessage.user_id message = target) then
          let time_diff := time_diff_us current_time message in
          if bool_decide (five_minutes_us < time_diff)%Z then
            add_processed message_id
          else
            direct_send P (response_message b) [target] ;;;
            add_processed message_id ;;;
            trim_processed
        else ret tt
    | None => ret tt
    end.

(** [check_and_respond]; [current_time] is what [datetime.now(utc)]
    reads, in microseconds. *)
Definition check_and_respond (current_time : Z) : M unit :=
  try_except
    (let* b := get in
     if falsy (thread_id b) then ret tt
     else
       let* thread := direct_thread P (default EmptyString (thread_id b)) in
       for_each (process_message current_time) (DirectThread.messages thread))
    [(Exception, λ _, ret tt)].

(** [get_target_user_id] *)
Definition get_target_user_id : M bool :=
  try_except
    (let* b := get in
     let* user_info := user_info_by_username P (target_username b) in
     modify (with_target_user_id (Some (UserShort.pk user_info))) ;;;
     ret true)
    [(Exception, λ _, ret false)].

(** Lines 146-148: fetch the thread found and mark its messages. *)
Definition mark_existing : M unit :=
  let* b := get in
  let* existing_thread := direct_thread P (default EmptyString (thread_id b)) in
  for_each (λ msg, add_processed (DirectMessage.id msg))
           (DirectThread.messages existing_thread).

(** The inner loop of [get_thread_id] over [thread.users]: [true] when
    the function has returned from inside it. *)
Fixpoint scan_users (thread : DirectThread.t) (users : list UserShort.t) : M bool :=
  match users with
  | [] => ret false
  | user :: users' =>
      let* b := get in
      if bool_decide (Some (UserShort.pk user) = target_user_id b) then
        modify (with_thread_id (Some (DirectThread.id thread))) ;;;
        mark_existing ;;;
        ret true
      else scan_users thread users'
  end.

(** The outer loop of [get_thread_id] over the threads. *)
Fixpoint scan_threads (threads : list DirectThread.t) : M bool :=
  match threads with
  | [] => ret false
  | thread :: threads' =>
      let* found := scan_users thread (DirectThread.users thread) in
      if found then ret true else scan_threads threads'
  end.

(** [get_thread_id] *)
Definition get_thread_id : M bool :=
  try_except
    (let* threads := direct_threads P 100 in
     scan_threads threads)
    [(Exception, λ _, ret false)].
End Poller.

(** ** Session manager *)

Section Session.
Context (P : Platform).

(** Lines 48-55: the attempt on the saved session.  [true] when
    [login] has returned [True] from inside it. *)
Definition session_login : M bool :=
  if session_file_exists P then
    try_except
      (let* b := get in
       load_settings P "session.json" ;;;
       client_login P (username b) (password b) ;;;
       ret true)
      [(Exception, λ _, ret false)]
  else ret false.

(** Lines 58-72: the fresh login and its challenge handler. *)
Definition fresh_login : M bool :=
  try_except
    (let* b := get in
     client_login P (username b) (password b) ;;;
     dump_settings P "session.json" ;;;
     ret true)
    [(is_ChallengeRequired,
      λ _, let* b := get in
           let* verification_code :=
             input P "Enter the verification code sent to your phone/email: " in
           challenge_code_handler P (username b) verification_code ;;;
           dump_settings P "session.json" ;;;
           ret true)].

(** [login].  The two outer handlers differ in what they log only. *)
Definition login : M bool :=
  try_except
    (let* done := session_login in
     if done then ret true else fresh_login)
    [(is_ChallengeRequired, λ _, ret false);
     (Exception, λ _, ret false)].
End Session.

(** ** The poll loop *)

Section Run.
Context (P : Platform) `{PySetOrder}.

(** One turn of the [while True] loop of [run], up to its pause. *)
Definition run_cycle (current_time : Z) : M unit :=
  let* b := get in
  (if falsy (thread_id b) then get_thread_id P ;;; ret tt else ret tt) ;;;
  let* b := get in
  if negb (falsy (thread_id b)) then check_and_respond P current_time else ret tt.

(** [run] when every pause returns (then [time.sleep] only lets time
    pass; [run_every] below has the pause), for as many turns of the loop
    as [clock] has readings: the reading of turn [i] is what
    [datetime.now] gives in that turn. *)
Definition run (clock : list Z) : M unit :=
  let* logged_in := login P in
  if negb logged_in then ret tt
  else
    let* found := get_target_user_id P in
    if negb found then ret tt
    else
      get_thread_id P ;;;
      try_except (for_each run_cycle clock) [(Exception, λ _, ret tt)].
End Run.

(** ** Configuration *)

(** The built-in [int] is not code of this program: [main] below takes
    it as an argument, and what follows is the built-in on the text a
    [string] can hold, for the samples.  A [string] is read as the [str]
    with one character for each of its bytes, the byte being the code
    point (so all below 256).

    [int(s)] on such text: surrounding blanks are dropped, one sign is
    allowed, then decimal digits, with single underscores between
    digits.  Anything else is a [ValueError], and so is a literal of more
    than 4300 digits (the interpreter's default limit).  The blanks are
    the codes 9 to 13 and 32, and beyond ASCII the codes 133 and 160; the
    separators 28 to 31 are not blanks for [int]. *)
Definition is_space (a : ascii) : bool :=
  let n := nat_of_ascii a in
  ((9 <=? n)%nat && (n <=? 13)%nat) || (n =? 32)%nat || (n =? 133)%nat || (n =? 160)%nat.

Definition digit_of (a : ascii) : option Z :=
  let n := nat_of_ascii a in
  if ((48 <=? n)%nat && (n <=? 57)%nat) then Some (Z.of_nat (n - 48)) else None.

Fixpoint lstrip (l : list ascii) : list ascii :=
  match l with
  | a :: l' => if is_space a then lstrip l' else l
  | [] => []
  end.

Definition strip (l : list ascii) : list ascii := rev (lstrip (rev (lstrip l))).

Fixpoint parse_digits (acc : Z) (ndigits : nat) (after_digit : bool) (l : list ascii)
  : option Z :=
  match l with
  | [] => if after_digit && (ndigits <=? 4300)%nat then Some acc else None
  | a :: l' =>
      if Ascii.eqb a "_"%char then
        if after_digit then parse_digits acc ndigits false l' else None
      else
        match digit_of a with
        | Some d => parse_digits (10 * acc + d)%Z (S ndigits) true l'
        | None => None
        end
  end.

Definition python_int (s : string) : option Z :=
  match strip (String.list_ascii_of_string s) with
  | a :: l =>
      if Ascii.eqb a "-"%char then Z.opp <$> parse_digits 0 0 false l
      else if Ascii.eqb a "+"%char then parse_digits 0 0 false l
      else parse_digits 0 0 false (a :: l)
  | [] => None
  end.

(** The outcome of [int(s)]: the number, or the [ValueError] (its message
    cut after the fixed part, which the text itself follows). *)
Definition builtin_int (s : string) : result Z :=
  match python_int s with
  | Some n => Ok n
  | None => Raise (ValueError "invalid literal for int() with base 10")
  end.

(** [os.getenv(key, default)] on the environment after [load_dotenv]. *)
Definition getenv (env : gmap string string) (key : string) : option string := env !! key.

(** Truthiness of what [os.getenv] gives: [None] and [''] are falsy. *)
Definition truthy (v : option string) : bool :=
  match v with
  | None => false
  | Some s => negb (bool_decide (s = EmptyString))
  end.

(** A variable [all([...])] counts as missing: not set, or set to ['']. *)
Definition unset (v : option string) : Prop := v = None ∨ v = Some EmptyString.

(** How [main] ends its own work: it returns after logging errors, or
    it builds the bot and calls [run]. *)
Inductive Started :=
| ReturnedEarly (errors : list string)
| RunBot (username password target_username response_message : string)
         (check_interval : Z).

(** [main], up to the call of [bot.run].  [int] is the built-in of the
    interpreter that runs [main]: line 271 calls it outside any [try], so
    what it raises leaves [main]. *)
Definition main (int : string → result Z) (env : gmap string string) : result Started :=
  let username := getenv env "YOUR_USERNAME" in
  let password := getenv env "YOUR_PASSWORD" in
  let target_username := getenv env "TARGET_USERNAME" in
  let response_message := default "Thanks for your message!" (getenv env "RESPONSE_MESSAGE") in
  match int (default "10" (getenv env "CHECK_INTERVAL")) with
  | Raise e => Raise e
  | Ok check_interval =>
      if negb (forallb truthy [username; password; target_username]) then
        Ok (ReturnedEarly
              ["Missing required environment variables in .env file";
               "Please set: YOUR_USERNAME, YOUR_PASSWORD, TARGET_USERNAME"])
      else
        Ok (RunBot (default EmptyString username) (default EmptyString password)
                   (default EmptyString target_username) response_message check_interval)
  end.

(** ** The response policy in the specification's terms *)

Inductive Action := Reply | Ignore | MarkSeenOnly.

(** The rules of the specification's [decide], in its order, first match
    wins; [age] is the message's age in microseconds. *)
Definition spec_decide (message : DirectMessage.t) (selfId targetId : UserId)
    (seenSet : gset MsgId) (now : Z) : Action :=
  if bool_decide (DirectMessage.id message ∈ seenSet) then Ignore
  else if bool_decide (DirectMessage.user_id message = selfId) then MarkSeenOnly
  else if bool_decide (DirectMessage.user_id message ≠ targetId) then Ignore
  else if bool_decide (five_minutes_us < time_diff_us now message)%Z then MarkSeenOnly
  else Reply.

(** The bot with one more id in its set and nothing else changed. *)
Definition marked (message_id : MsgId) (b : InstagramBot) : InstagramBot :=
  with_processed_messages ({[message_id]} ∪ processed_messages b) b.

(** What it is for one execution of the loop body, started on [b] and
    ending in [out], to carry out a decision.  Ignore: nothing changes.
    MarkSeenOnly: the id is in the set afterwards and nothing else
    changes, so nothing is sent.  Reply: the response goes to the target
    once, and the id is in the set afterwards. *)
Definition performs (d : Action) (message : DirectMessage.t) (b : InstagramBot)
    (out : result unit * InstagramBot) : Prop :=
  match d with
  | Ignore => out = (Ok tt, b)
  | MarkSeenOnly => out = (Ok tt, marked (DirectMessage.id message) b)
  | Reply =>
      out.1 = Ok tt ∧
      (∃ target, target_user_id b = Some target ∧
                 sent out.2 = (response_message b, [target]) :: sent b) ∧
      DirectMessage.id message ∈ processed_messages out.2
  end.

(** ** Sample worlds *)

(** An enumeration order for sets: the one of the finite-set library. *)
#[local] Instance table_order : PySetOrder :=
  {| set_to_list := elements; set_to_list_perm := λ s, reflexivity (elements s) |}.

(** Another one: [x] first whenever it is in the set. *)
Definition front_first (x : Z) (s : gset Z) : list Z :=
  if decide (x ∈ s) then x :: elements (s ∖ {[x]}) else elements s.

Definition front_order (x : Z) : PySetOrder :=
  {| set_to_list := front_first x;
     set_to_list_perm :=
       ltac:(intros s; unfold front_first; case_decide as Hin; [|reflexivity];
             rewrite (union_difference_singleton_L x s Hin) at 2;
             symmetry; apply elements_union_singleton; set_solver) |}.

(** [id] sent by [sender] at the instant [at_us] (UTC, aware). *)
Definition message_at (id : MsgId) (sender : UserId) (at_us : Z) : DirectMessage.t :=
  {| DirectMessage.id := id; DirectMessage.user_id := sender;
     DirectMessage.text := "hi";
     DirectMessage.timestamp := {| wall_us := at_us; tzinfo := Some 0%Z |} |}.

(** A conversation with user 42 holding the given messages. *)
Definition thread_with (messages : list DirectMessage.t) : DirectThread.t :=
  {| DirectThread.id := "340282366841710300949128";
     DirectThread.users := [ {| UserShort.pk := 42%Z |} ];
     DirectThread.messages := messages |}.

(** A platform on which every call succeeds, user 42 is the one looked
    up, and the inbox holds the one thread [thread]. *)
Definition steady (thread : DirectThread.t) : Platform :=
  {| session_file_exists := false;
     load_settings_at := λ _, Ok tt;
     login_at := λ _, Ok tt;
     dump_settings_at := λ _, Ok tt;
     input_at := λ _, Ok "123456";
     challenge_code_handler_at := λ _ _, Ok tt;
     user_info_by_username_at := λ _ _, Ok {| UserShort.pk := 42%Z |};
     inbox_at := λ _, Ok [thread];
     direct_thread_at := λ _ _, Ok thread;
     direct_send_at := λ _ _ _, Ok tt |}.

(** The bot of account 7, set to answer user 42. *)
Definition bot7 : InstagramBot :=
  with_target_user_id (Some 42%Z)
    (init 7%Z "bot" "secret" "friend" "Thanks for your message!").

(** Messages 1 to [n] of user 42, all sent at instant 0. *)
Definition backlog (n : nat) : list DirectMessage.t :=
  (λ i, message_at (Z.of_nat i) 42%Z 0%Z) <$> seq 1 n.

(** [steady], except that the call numbered [k], if it is a thread
    fetch, times out. *)
Definition fetch_fails_at (k : nat) (thread : DirectThread.t) : Platform :=
  {| session_file_exists := false;
     load_settings_at := λ _, Ok tt;
     login_at := λ _, Ok tt;
     dump_settings_at := λ _, Ok tt;
     input_at := λ _, Ok "123456";
     challenge_code_handler_at := λ _ _, Ok tt;
     user_info_by_username_at := λ _ _, Ok {| UserShort.pk := 42%Z |};
     inbox_at := λ _, Ok [thread];
     direct_thread_at := λ n _, if (n =? k)%nat then Raise (OtherError "timed out") else Ok thread;
     direct_send_at := λ _ _ _, Ok tt |}.

(** A platform with a saved session that cannot be loaded. *)
Definition corrupt_session : Platform :=
  {| session_file_exists := true;
     load_settings_at := λ _, Raise (OtherError "Expecting value: line 1 column 1 (char 0)");
     login_at := λ _, Ok tt;
     dump_settings_at := λ _, Ok tt;
     input_at := λ _, Ok "123456";
     challenge_code_handler_at := λ _ _, Ok tt;
     user_info_by_username_at := λ _ _, Ok {| UserShort.pk := 42%Z |};
     inbox_at := λ _, Ok [];
     direct_thread_at := λ _ _, Raise (OtherError "not found");
     direct_send_at := λ _ _ _, Ok tt |}.

(** [P] without its saved session file. *)
Definition no_session_file (P : Platform) : Platform :=
  {| session_file_exists := false;
     load_settings_at := load_settings_at P;
     login_at := login_at P;
     dump_settings_at := dump_settings_at P;
     input_at := input_at P;
     challenge_code_handler_at := challenge_code_handler_at P;
     user_info_by_username_at := user_info_by_username_at P;
     inbox_at := inbox_at P;
     direct_thread_at := direct_thread_at P;
     direct_send_at := direct_send_at P |}.

(** [steady], except that every send fails. *)
Definition send_fails (thread : DirectThread.t) : Platform :=
  {| session_file_exists := false;
     load_settings_at := λ _, Ok tt;
     login_at := λ _, Ok tt;
     dump_settings_at := λ _, Ok tt;
     input_at := λ _, Ok "123456";
     challenge_code_handler_at := λ _ _, Ok tt;
     user_info_by_username_at := λ _ _, Ok {| UserShort.pk := 42%Z |};
     inbox_at := λ _, Ok [thread];
     direct_thread_at := λ _ _, Ok thread;
     direct_send_at := λ _ _ _, Raise (OtherError "feedback_required") |}.

(** The bot of account 7 as [main] builds it. *)
Definition bot0 : InstagramBot :=
  init 7%Z "bot" "secret" "friend" "Thanks for your message!".

(** [bot7] once it has found the conversation of [thread_with]. *)
Definition bot7_polling : InstagramBot :=
  with_thread_id (Some "340282366841710300949128") bot7.

(** Ten seconds, in microseconds. *)
Definition ten_seconds_us : Z := 10000000.

(** An environment with the three variables [main] requires. *)
Definition plain_env : gmap string string :=
  <["YOUR_USERNAME" := "bot"]>
    (<["YOUR_PASSWORD" := "secret"]> (<["TARGET_USERNAME" := "friend"]> ∅)).

(** An environment that names the account [USERNAME] and [PASSWORD]. *)
Definition short_named_env : gmap string string :=
  <["USERNAME" := "bot"]>
    (<["PASSWORD" := "secret"]> (<["TARGET_USERNAME" := "friend"]> ∅)).

(** [bot7_polling] with the ids 1 to 100 in its set. *)
Definition bot7_full : InstagramBot :=
  with_processed_messages (list_to_set (Z.of_nat <$> seq 1 100)) bot7_polling.

(** A thread with a message of the bot's own, then two of user 42. *)
Definition mixed_thread : DirectThread.t :=
  thread_with [message_at 2 7 0; message_at 1 42 0; message_at 3 42 0].

(** ** The pause between poll cycles *)

(** [time.sleep] is the interpreter's, not this program's: whether a
    call returns or raises, and what, is up to the interpreter and the
    system under it.  [time_sleep seconds] is that outcome; the bot's
    state has no part in it. *)
Section RunEvery.
Context (P : Platform) `{PySetOrder}.
Context (time_sleep : Z → result unit).

(** [time.sleep(seconds)]. *)
Definition sleep (seconds : Z) : M unit := λ b, (time_sleep seconds, b).

(** One turn of the [while True] loop of [run], pause included. *)
Definition run_turn (check_interval : Z) (current_time : Z) : M unit :=
  run_cycle P current_time ;;; sleep check_interval.

(** [run(check_interval)], for as many turns of the loop as [clock]
    has readings. *)
Definition run_every (check_interval : Z) (clock : list Z) : M unit :=
  let* logged_in := login P in
  if negb logged_in then ret tt
  else
    let* found := get_target_user_id P in
    if negb found then ret tt
    else
      get_thread_id P ;;;
      try_except (for_each (run_turn check_interval) clock) [(Exception, λ _, ret tt)].
End RunEvery.

(** A [time.sleep] for the samples, after CPython 3.11 on 64-bit Linux:
    a length that does not fit the nanoseconds of its clock is an
    [OverflowError], a negative one a [ValueError], the others are slept
    through.  (Just under the upper bound the system call can still
    refuse the deadline, by the reading of the clock; the statements on
    the pause take its outcome as given.) *)
Definition sample_sleep (seconds : Z) : result unit :=
  if bool_decide (seconds < -9223372036 ∨ 9223372036 < seconds)%Z
  then Raise (OtherError "timestamp too large to convert to C _PyTime_t")
  else if bool_decide (seconds < 0)%Z
  then Raise (ValueError "sleep length must be non-negative")
  else Ok tt.

(** ** What a stretch of execution changes *)

(** [s] is the bot's response, addressed to its target alone. *)
Definition is_reply_of (b : InstagramBot) (s : string * list Z) : Prop :=
  ∃ target, target_user_id b = Some target ∧ s = (response_message b, [target]).

(** The account, the credentials, the response, the target and the
    thread are the same in [b'] as in [b]. *)
Definition same_settings (b b' : InstagramBot) : Prop :=
  user_id (client b') = user_id (client b) ∧
  username b' = username b ∧ password b' = password b ∧
  target_username b' = target_username b ∧
  response_message b' = response_message b ∧
  target_user_id b' = target_user_id b ∧
  thread_id b' = thread_id b.

(** From [b] to [b'] at most [n] messages were delivered, each a reply
    of [b]. *)
Definition replies_since (n : nat) (b b' : InstagramBot) : Prop :=
  ∃ new, sent b' = new ++ sent b ∧ length new ≤ n ∧ Forall (is_reply_of b) new.

(** The account, the credentials, the response and the target are the
    same in [b'] as in [b]; the thread id may differ. *)
Definition same_identity (b b' : InstagramBot) : Prop :=
  user_id (client b') = user_id (client b) ∧
  username b' = username b ∧ password b' = password b ∧
  target_username b' = target_username b ∧
  response_message b' = response_message b ∧
  target_user_id b' = target_user_id b.

(** The target is among the users of [thread]. *)
Definition with_target (b : InstagramBot) (thread : DirectThread.t) : Prop :=
  Exists (λ user, Some (UserShort.pk user) = target_user_id b) (DirectThread.users thread).

(** What a scan ends in when it has not simply found nothing. *)
Definition resolved_to (thread : DirectThread.t) (b : InstagramBot)
    (r : result bool * InstagramBot) : Prop :=
  with_target b thread ∧
  r.1 ≠ Ok false ∧
  thread_id r.2 = Some (DirectThread.id thread) ∧
  same_identity b r.2 ∧ sent r.2 = sent b ∧
  processed_messages b ⊆ processed_messages r.2.

(** From [b] to [b'] the identity is kept and all that was delivered
    are replies of [b]. *)
Definition replied_only (b b' : InstagramBot) : Prop :=
  same_identity b b' ∧ ∃ new, sent b' = new ++ sent b ∧ Forall (is_reply_of b) new.

(** What the loop body does with a message when the send of a reply
    returns and nothing is trimmed: nothing, mark the id, or deliver
    [text] to [target] and mark the id. *)
Inductive Step :=
| Skip
| Mark
| Answer (text : string) (target : Z).

(** The branch the loop body takes on [message] in state [b]. *)
Definition verdict (now : Z) (message : DirectMessage.t) (b : InstagramBot) : Step :=
  if bool_decide (DirectMessage.id message ∈ processed_messages b) then Skip
  else if bool_decide (DirectMessage.user_id message = user_id (client b)) then Mark
  else
    match target_user_id b with
    | Some target =>
        if bool_decide (DirectMessage.user_id message = target) then
          if bool_decide (five_minutes_us < time_diff_us now message)%Z then Mark
          else Answer (response_message b) target
        else Skip
    | None => Skip
    end.

Definition act (s : Step) (message_id : Z) (b : InstagramBot) : InstagramBot :=
  match s with
  | Skip => b
  | Mark => marked message_id b
  | Answer text target =>
      marked message_id (record_call (CallDirectSend text [target]) true b)
  end.

Definition settle (now : Z) (message : DirectMessage.t) (b : InstagramBot) : InstagramBot :=
  act (verdict now message b) (DirectMessage.id message) b.

(** How many of the recorded calls satisfy [p]. *)
Fixpoint count_calls (p : Call → bool) (h : list (Call * bool)) : nat :=
  match h with
  | [] => 0
  | (c, _) :: h' => (if p c then 1 else 0) + count_calls p h'
  end.

Definition is_login_call (c : Call) : bool :=
  match c with CallLogin _ _ => true | _ => false end.

Definition is_input_call (c : Call) : bool :=
  match c with CallInput _ => true | _ => false end.

Definition is_send_call (c : Call) : bool :=
  match c with CallDirectSend _ _ => true | _ => false end.

Definition is_threads_call (c : Call) : bool :=
  match c with CallDirectThreads _ => true | _ => false end.

(** [message] with another timestamp. *)
Definition with_timestamp (t : datetime) (message : DirectMessage.t) : DirectMessage.t :=
  {| DirectMessage.id := DirectMessage.id message;
     DirectMessage.user_id := DirectMessage.user_id message;
     DirectMessage.text := DirectMessage.text message;
     DirectMessage.timestamp := t |}.

(** A platform given by what the session file, the logins, the saving
    of the session and the lookup of the target answer; the inbox holds
    the one thread [thread] and every fetch and send returns. *)
Definition scripted (file : bool) (load login dump : nat → result unit)
    (lookup : result UserShort.t) (thread : DirectThread.t) : Platform :=
  {| session_file_exists := file;
     load_settings_at := load;
     login_at := login;
     dump_settings_at := dump;
     input_at := λ _, Ok "123456";
     challenge_code_handler_at := λ _ _, Ok tt;
     user_info_by_username_at := λ _ _, lookup;
     inbox_at := λ _, Ok [thread];
     direct_thread_at := λ _ _, Ok thread;
     direct_send_at := λ _ _ _, Ok tt |}.

Definition returns : nat → result unit := λ _, Ok tt.

(** A saved session that is still valid. *)
Definition saved_session : Platform :=
  scripted true returns returns returns (Ok {| UserShort.pk := 42%Z |}) mixed_thread.

(** The session file cannot be written. *)
Definition read_only_disk : Platform :=
  scripted false returns returns (λ _, Raise (OtherError "Permission denied"))
    (Ok {| UserShort.pk := 42%Z |}) mixed_thread.

(** The first login meets a challenge. *)
Definition challenged : Platform :=
  scripted false returns
    (λ n, if (n =? 0)%nat then Raise (ChallengeRequired "challenge_required") else Ok tt)
    returns (Ok {| UserShort.pk := 42%Z |}) mixed_thread.

(** The password is refused. *)
Definition wrong_password : Platform :=
  scripted false returns (λ _, Raise (OtherError "The password you entered is incorrect"))
    returns (Ok {| UserShort.pk := 42%Z |}) mixed_thread.

(** The target does not exist. *)
Definition unknown_target : Platform :=
  scripted false returns returns returns (Raise (OtherError "User not found")) mixed_thread.

(** The inbox cannot be listed. *)
Definition inbox_down : Platform :=
  {| session_file_exists := false;
     load_settings_at := returns;
     login_at := returns;
     dump_settings_at := returns;
     input_at := λ _, Ok "123456";
     challenge_code_handler_at := λ _ _, Ok tt;
     user_info_by_username_at := λ _ _, Ok {| UserShort.pk := 42%Z |};
     inbox_at := λ _, Raise (OtherError "timed out");
     direct_thread_at := λ _ _, Raise (OtherError "timed out");
     direct_send_at := λ _ _ _, Ok tt |}.

(** A conversation with user 99 only. *)
Definition stranger_thread : DirectThread.t :=
  {| DirectThread.id := "340282366841710300949129";
     DirectThread.users := [ {| UserShort.pk := 99%Z |} ];
     DirectThread.messages := [message_at 9 99 0] |}.

(** * Properties *)

Example python_int_examples :
  python_int "10" = Some 10%Z ∧ python_int " -1_000 " = Some (-1000)%Z ∧
  python_int "007" = Some 7%Z ∧ python_int "ten" = None ∧ python_int "" = None ∧
  python_int "1__0" = None ∧ python_int "_1" = None ∧ python_int "1.5" = None ∧
  python_int "- 1" = None.
Proof. repeat split; reflexivity. Qed.

(** Tabs, line ends and the space are blanks for [int]; the separators
    28 to 31 are not, neither before nor after the digits. *)
Example python_int_blanks :
  python_int (String (ascii_of_nat 9) (String (ascii_of_nat 11) "7")) = Some 7%Z ∧
  python_int (String (ascii_of_nat 12) ("7" +:+ String (ascii_of_nat 13) "")) = Some 7%Z ∧
  python_int (String (ascii_of_nat 160) "5") = Some 5%Z ∧
  python_int (String (ascii_of_nat 28) "7") = None ∧
  python_int ("7" +:+ String (ascii_of_nat 31) "") = None ∧
  builtin_int (String (ascii_of_nat 28) "7")
    = Raise (ValueError "invalid literal for int() with base 10").
Proof. repeat split; reflexivity. Qed.

(** ** Records and the monad *)

Lemma with_processed_messages_same b :
  with_processed_messages (processed_messages b) b = b.
Proof. by destruct b. Qed.

Lemma marked_seen message_id b :
  message_id ∈ processed_messages b → marked message_id b = b.
Proof.
  intros Hin. unfold marked.
  rewrite (subseteq_union_1_L {[message_id]} (processed_messages b))
    by by apply singleton_subseteq_l.
  apply with_processed_messages_same.
Qed.

Lemma size_add_fresh (x : Z) (s : gset Z) : x ∉ s → size ({[x]} ∪ s) = S (size s).
Proof.
  intros Hx. rewrite size_union by set_solver. by rewrite size_singleton.
Qed.

Lemma sent_marked message_id b : sent (marked message_id b) = sent b.
Proof. reflexivity. Qed.

Lemma processed_marked message_id b :
  processed_messages (marked message_id b) = {[message_id]} ∪ processed_messages b.
Proof. reflexivity. Qed.

(** ** One execution of the loop body *)

Section PolicyFacts.
Context (P : Platform) `{PySetOrder}.
Implicit Types (b : InstagramBot) (message : DirectMessage.t).

Lemma process_message_seen now message b :
  DirectMessage.id message ∈ processed_messages b →
  process_message P now message b = (Ok tt, b).
Proof.
  intros Hin. unfold process_message, bind, get. simpl.
  by rewrite bool_decide_eq_true_2.
Qed.

Lemma process_message_self now message b :
  DirectMessage.id message ∉ processed_messages b →
  DirectMessage.user_id message = user_id (client b) →
  process_message P now message b = (Ok tt, marked (DirectMessage.id message) b).
Proof.
  intros Hout Hself. unfold process_message, bind, get. simpl.
  rewrite bool_decide_eq_false_2 by done.
  by rewrite bool_decide_eq_true_2.
Qed.

Lemma process_message_stale now message b :
  DirectMessage.id message ∉ processed_messages b →
  target_user_id b = Some (DirectMessage.user_id message) →
  (five_minutes_us < time_diff_us now message)%Z →
  process_message P now message b = (Ok tt, marked (DirectMessage.id message) b).
Proof.
  intros Hout Htarget Hold. unfold process_message, bind, get. simpl.
  rewrite bool_decide_eq_false_2 by done.
  case_bool_decide; [done |].
  rewrite Htarget. rewrite bool_decide_eq_true_2 by done.
  by rewrite bool_decide_eq_true_2.
Qed.

Lemma process_message_other now message b :
  DirectMessage.id message ∉ processed_messages b →
  DirectMessage.user_id message ≠ user_id (client b) →
  target_user_id b ≠ Some (DirectMessage.user_id message) →
  process_message P now message b = (Ok tt, b).
Proof.
  intros Hout Hself Htarget. unfold process_message, bind, get. simpl.
  rewrite !bool_decide_eq_false_2 by done.
  destruct (target_user_id b) as [target|]; [|done].
  rewrite bool_decide_eq_false_2; [done | congruence].
Qed.

(** The Reply branch up to the outcome of the send. *)
Lemma process_message_fresh now message b :
  DirectMessage.id message ∉ processed_messages b →
  DirectMessage.user_id message ≠ user_id (client b) →
  target_user_id b = Some (DirectMessage.user_id message) →
  (time_diff_us now message ≤ five_minutes_us)%Z →
  process_message P now message b =
    (direct_send P (response_message b) [DirectMessage.user_id message] ;;;
     add_processed (DirectMessage.id message) ;;;
     trim_processed) b.
Proof.
  intros Hout Hself Htarget Hage. unfold process_message at 1.
  unfold bind at 1, get at 1. simpl.
  rewrite !bool_decide_eq_false_2 by done.
  rewrite Htarget, bool_decide_eq_true_2 by done.
  rewrite bool_decide_eq_false_2 by lia. done.
Qed.

Lemma process_message_send_raises now message b e :
  DirectMessage.id message ∉ processed_messages b →
  DirectMessage.user_id message ≠ user_id (client b) →
  target_user_id b = Some (DirectMessage.user_id message) →
  (time_diff_us now message ≤ five_minutes_us)%Z →
  direct_send_at P (calls b) (response_message b) [DirectMessage.user_id message]
    = Raise e →
  process_message P now message b =
    (Raise e,
     record_call (CallDirectSend (response_message b) [DirectMessage.user_id message])
                 false b).
Proof.
  intros Hout Hself Htarget Hage Hsend.
  rewrite process_message_fresh by done.
  unfold bind, direct_send, call. by rewrite Hsend.
Qed.

Lemma process_message_send_returns now message b :
  DirectMessage.id message ∉ processed_messages b →
  DirectMessage.user_id message ≠ user_id (client b) →
  target_user_id b = Some (DirectMessage.user_id message) →
  (time_diff_us now message ≤ five_minutes_us)%Z →
  direct_send_at P (calls b) (response_message b) [DirectMessage.user_id message]
    = Ok tt →
  process_message P now message b =
    trim_processed
      (marked (DirectMessage.id message)
         (record_call
            (CallDirectSend (response_message b) [DirectMessage.user_id message])
            true b)).
Proof.
  intros Hout Hself Htarget Hage Hsend.
  rewrite process_message_fresh by done.
  unfold bind, direct_send, call. by rewrite Hsend.
Qed.

(** *** The trim of lines 213-215 *)

Lemma set_to_list_NoDup (s : gset Z) : NoDup (set_to_list s).
Proof. rewrite set_to_list_perm. apply NoDup_elements. Qed.

Lemma elem_of_set_to_list (s : gset Z) x : x ∈ set_to_list s ↔ x ∈ s.
Proof. rewrite set_to_list_perm. apply elem_of_elements. Qed.

Lemma length_set_to_list (s : gset Z) : length (set_to_list s) = size s.
Proof. by rewrite set_to_list_perm. Qed.

Lemma trim_small b :
  size (processed_messages b) ≤ 100 → trim_processed b = (Ok tt, b).
Proof.
  intros Hle. unfold trim_processed, bind, get. simpl.
  case_decide; [lia | done].
Qed.

Lemma trim_large b :
  100 < size (processed_messages b) →
  trim_processed b =
    (Ok tt, with_processed_messages
              (list_to_set (last_n 100 (set_to_list (processed_messages b)))) b).
Proof.
  intros Hlt. unfold trim_processed, bind, get. simpl.
  case_decide; [done | lia].
Qed.


Lemma trim_sent b : sent (trim_processed b).2 = sent b.
Proof.
  unfold trim_processed, bind, get. simpl. by case_decide.
Qed.

Lemma trim_subseteq b :
  processed_messages (trim_processed b).2 ⊆ processed_messages b.
Proof.
  unfold trim_processed, bind, get. simpl. case_decide; [|done].
  simpl. intros x Hx. apply elem_of_list_to_set in Hx.
  apply elem_of_set_to_list. unfold last_n in Hx.
  by eapply subseteq_drop.
Qed.

(** Whatever the enumeration order, a trim leaves exactly 100 ids. *)
Lemma trim_size b :
  100 < size (processed_messages b) →
  size (processed_messages (trim_processed b).2) = 100.
Proof.
  intros Hlt. rewrite trim_large by done. simpl.
  rewrite size_list_to_set.
  - unfold last_n. rewrite length_drop, length_set_to_list. lia.
  - unfold last_n.
    eapply sublist_NoDup; [apply set_to_list_NoDup | apply sublist_drop].
Qed.

Lemma trim_size_le b :
  size (processed_messages (trim_processed b).2) ≤ 100.
Proof.
  destruct (decide (100 < size (processed_messages b))) as [Hlt|Hle].
  - by rewrite trim_size.
  - rewrite trim_small by lia. simpl. lia.
Qed.
End PolicyFacts.

(** ** The claims on single messages *)

Section Policy.
Context (P : Platform) `{PySetOrder}.
Implicit Types (b : InstagramBot) (message : DirectMessage.t).

(** C3.  A message whose id is already in the set of processed ids is
    ignored, whoever sent it and whenever: the loop body returns
    normally, the bot is left exactly as it was, and so nothing is
    sent. *)
Theorem seen_message_is_ignored now message b :
  DirectMessage.id message ∈ processed_messages b →
  performs Ignore message b (process_message P now message b) ∧
  sent (process_message P now message b).2 = sent b.
Proof.
  intros Hin. rewrite process_message_seen by done. by split.
Qed.

(** C5.  A message sent by the bot's own account is marked and not
    answered, whatever its age and whether or not its id was in the
    set before: afterwards the id is in the set, nothing else has
    changed, and nothing has been sent. *)
Theorem own_message_is_marked_only now message b :
  DirectMessage.user_id message = user_id (client b) →
  performs MarkSeenOnly message b (process_message P now message b) ∧
  DirectMessage.id message ∈ processed_messages (process_message P now message b).2 ∧
  sent (process_message P now message b).2 = sent b.
Proof.
  intros Hself.
  destruct (decide (DirectMessage.id message ∈ processed_messages b)) as [Hin|Hout].
  - rewrite process_message_seen by done. simpl.
    split_and!; [by rewrite marked_seen | done | done].
  - rewrite process_message_self by done. simpl.
    split_and!; [done | set_solver | done].
Qed.

Lemma stale_message_marked now message b :
  target_user_id b = Some (DirectMessage.user_id message) →
  (five_minutes_us < time_diff_us now message)%Z →
  process_message P now message b = (Ok tt, marked (DirectMessage.id message) b).
Proof.
  intros Htarget Hold.
  destruct (decide (DirectMessage.id message ∈ processed_messages b)) as [Hin|Hout].
  - rewrite process_message_seen by done. by rewrite marked_seen.
  - destruct (decide (DirectMessage.user_id message = user_id (client b))).
    + by apply process_message_self.
    + by apply process_message_stale.
Qed.

(** The code carries out the specification's decision: whenever the
    send of a Reply returns and the set held fewer than 100 ids. *)
Lemma process_message_refines_spec now message b target :
  target_user_id b = Some target →
  (spec_decide message (user_id (client b)) target (processed_messages b) now = Reply →
   direct_send_at P (calls b) (response_message b) [target] = Ok tt ∧
   size (processed_messages b) < 100) →
  performs
    (spec_decide message (user_id (client b)) target (processed_messages b) now)
    message b (process_message P now message b).
Proof.
  intros Htarget Hreply. unfold spec_decide in *.
  case_bool_decide as Hseen.
  { by rewrite process_message_seen. }
  case_bool_decide as Hself.
  { by rewrite process_message_self. }
  case_bool_decide as Hother.
  { rewrite process_message_other; [done..|]. congruence. }
  subst target.
  case_bool_decide as Hold.
  { by rewrite process_message_stale. }
  destruct Hreply as [Hsend Hsize]; [done|].
  rewrite process_message_send_returns by (done || lia).
  rewrite trim_small.
  - simpl. split_and!; [done | by eexists | set_solver].
  - simpl. rewrite size_add_fresh by done. lia.
Qed.
End Policy.

(** ** One poll cycle *)

Lemma for_each_app {A} (body : A → M unit) (l1 l2 : list A) b :
  for_each body (l1 ++ l2) b =
    match for_each body l1 b with
    | (Ok _, b') => for_each body l2 b'
    | (Raise e, b') => (Raise e, b')
    end.
Proof.
  revert b. induction l1 as [|x l1 IH]; intros b; [done|].
  simpl. unfold bind. destruct (body x b) as [[[]|e] b']; [apply IH | done].
Qed.

Lemma for_each_marks {A} (body : A → M unit) (key : A → Z) (Q : InstagramBot → A → Prop)
    (l : list A) b :
  (∀ x b', Q b' x → body x b' = (Ok tt, marked (key x) b')) →
  (∀ x y b', Q b' x → Q (marked (key y) b') x) →
  Forall (Q b) l →
  for_each body l b = (Ok tt, foldl (λ b' x, marked (key x) b') b l).
Proof.
  intros Hbody Hstable. revert b.
  induction l as [|x l IH]; intros b Hall; [done|].
  apply Forall_cons in Hall as [Hx Hl].
  simpl. unfold bind. rewrite Hbody by done.
  apply IH. eapply Forall_impl; [exact Hl | eauto].
Qed.

Lemma sent_foldl_marked {A} (key : A → Z) (l : list A) b :
  sent (foldl (λ b' x, marked (key x) b') b l) = sent b.
Proof. revert b. induction l as [|x l IH]; intros b; [done|]. simpl. by rewrite IH. Qed.

Lemma processed_foldl_marked {A} (key : A → Z) (l : list A) b :
  processed_messages (foldl (λ b' x, marked (key x) b') b l)
    = list_to_set (key <$> l) ∪ processed_messages b.
Proof.
  revert b. induction l as [|x l IH]; intros b; simpl.
  - set_solver.
  - rewrite IH. simpl. set_solver.
Qed.

Section Cycle.
Context (P : Platform) `{PySetOrder}.
Implicit Types (b : InstagramBot) (message : DirectMessage.t).

(** The cycle once the thread has been fetched. *)
Lemma check_and_respond_fetched now b tid thread :
  thread_id b = Some tid → tid ≠ EmptyString →
  direct_thread_at P (calls b) tid = Ok thread →
  check_and_respond P now b =
    try_except (for_each (process_message P now) (DirectThread.messages thread))
               [(Exception, λ _, ret tt)]
               (record_call (CallDirectThread tid) true b).
Proof.
  intros Htid Hne Hfetch. unfold check_and_respond, try_except.
  unfold bind at 1, get at 1. rewrite Htid. simpl.
  rewrite bool_decide_eq_false_2 by done.
  unfold bind at 1, direct_thread, call. by rewrite Hfetch.
Qed.

(** The handler of [check_and_respond] lets nothing through. *)
Lemma check_and_respond_returns now b : (check_and_respond P now b).1 = Ok tt.
Proof.
  unfold check_and_respond, try_except.
  match goal with |- context [match ?body b with _ => _ end] =>
    destruct (body b) as [[[]|e] b'] end; done.
Qed.

(** C4.  A message of the target user that is more than 300 seconds old
    is marked and not answered: its id is in the set afterwards, nothing
    else has changed and nothing is sent.  In particular a poll cycle
    over a thread that holds only such messages sends nothing and leaves
    all their ids in the set. *)
Theorem stale_target_message_is_marked_only now b :
  (∀ message,
     target_user_id b = Some (DirectMessage.user_id message) →
     (five_minutes_us < time_diff_us now message)%Z →
     performs MarkSeenOnly message b (process_message P now message b) ∧
     DirectMessage.id message ∈ processed_messages (process_message P now message b).2 ∧
     sent (process_message P now message b).2 = sent b) ∧
  (∀ tid thread,
     thread_id b = Some tid → tid ≠ EmptyString →
     direct_thread_at P (calls b) tid = Ok thread →
     Forall (λ message,
               target_user_id b = Some (DirectMessage.user_id message) ∧
               (five_minutes_us < time_diff_us now message)%Z)
            (DirectThread.messages thread) →
     (check_and_respond P now b).1 = Ok tt ∧
     sent (check_and_respond P now b).2 = sent b ∧
     ∀ message, message ∈ DirectThread.messages thread →
                DirectMessage.id message ∈ processed_messages (check_and_respond P now b).2).
Proof.
  split.
  - intros message Htarget Hold.
    rewrite stale_message_marked by done. simpl.
    split_and!; [done | set_solver | done].
  - intros tid thread Htid Hne Hfetch Hall.
    split; [apply check_and_respond_returns|].
    rewrite (check_and_respond_fetched now b tid thread) by done.
    unfold try_except.
    rewrite (for_each_marks (process_message P now) DirectMessage.id
               (λ b' message,
                  target_user_id b' = Some (DirectMessage.user_id message) ∧
                  (five_minutes_us < time_diff_us now message)%Z)).
    + simpl. split.
      * by rewrite sent_foldl_marked.
      * intros message Hin. rewrite processed_foldl_marked.
        apply elem_of_union_l, elem_of_list_to_set, list_elem_of_fmap.
        by exists message.
    + intros message b' [Htarget Hold]. by apply stale_message_marked.
    + by intros message y b' [Htarget Hold].
    + exact Hall.
Qed.

(** C9.  In the Reply branch the send comes before the id is added.  So
    when the send raises for a message of the fetched thread, the cycle
    still returns normally and stops at that message: the bot is what
    the messages before it made of it, with the failed send recorded and
    nothing more; the id is not in the set, no message has been
    delivered for it, and what follows it in the thread has no effect. *)
Theorem failed_send_leaves_message_unmarked
    now b tid thread pre message post b2 e :
  thread_id b = Some tid → tid ≠ EmptyString →
  direct_thread_at P (calls b) tid = Ok thread →
  DirectThread.messages thread = pre ++ message :: post →
  for_each (process_message P now) pre (record_call (CallDirectThread tid) true b)
    = (Ok tt, b2) →
  DirectMessage.id message ∉ processed_messages b2 →
  DirectMessage.user_id message ≠ user_id (client b2) →
  target_user_id b2 = Some (DirectMessage.user_id message) →
  (time_diff_us now message ≤ five_minutes_us)%Z →
  direct_send_at P (calls b2) (response_message b2) [DirectMessage.user_id message]
    = Raise e →
  (check_and_respond P now b =
    (Ok tt,
     record_call (CallDirectSend (response_message b2) [DirectMessage.user_id message])
                 false b2)) ∧
  (DirectMessage.id message ∉ processed_messages (check_and_respond P now b).2) ∧
  processed_messages (check_and_respond P now b).2 = processed_messages b2 ∧
  sent (check_and_respond P now b).2 = sent b2.
Proof.
  intros Htid Hne Hfetch Hmsgs Hpre Hout Hself Htarget Hage Hsend.
  assert (check_and_respond P now b =
    (Ok tt,
     record_call (CallDirectSend (response_message b2) [DirectMessage.user_id message])
                 false b2)) as Heq.
  { rewrite (check_and_respond_fetched now b tid thread) by done.
    unfold try_except. rewrite Hmsgs, for_each_app, Hpre.
    simpl. unfold bind at 1.
    by rewrite (process_message_send_raises P now message b2 e). }
  rewrite Heq. by split_and!.
Qed.
End Cycle.

(** ** Replies *)

Section Replies.
Context (P : Platform) `{PySetOrder}.
Implicit Types (b : InstagramBot) (message : DirectMessage.t).


(** After an answered message the set holds at most 100 ids, whatever
    the enumeration order. *)
Lemma reply_caps_processed now message b :
  target_user_id b = Some (DirectMessage.user_id message) →
  DirectMessage.user_id message ≠ user_id (client b) →
  DirectMessage.id message ∉ processed_messages b →
  (time_diff_us now message ≤ five_minutes_us)%Z →
  direct_send_at P (calls b) (response_message b) [DirectMessage.user_id message]
    = Ok tt →
  size (processed_messages (process_message P now message b).2) ≤ 100.
Proof.
  intros Htarget Hself Hout Hage Hsend.
  rewrite process_message_send_returns by done. apply trim_size_le.
Qed.
End Replies.

(** ** Logging in *)

(** Case analysis on every answer of the platform a computation meets. *)
Ltac split_answers :=
  repeat match goal with
         | |- context [match ?r with Ok _ => _ | Raise _ => _ end] =>
             let E := fresh "Hanswer" in destruct r as [[]|[]] eqn:E; simpl
         | |- context [match ?r with Ok _ => _ | Raise _ => _ end] =>
             let E := fresh "Hanswer" in destruct r as [?|[]] eqn:E; simpl
         end.

Section SessionFacts.
Context (P : Platform).
Implicit Types (b : InstagramBot).

(** [login] returns a boolean, whatever the platform answers. *)
Lemma login_returns b : ∃ ok b', login P b = (Ok ok, b').
Proof.
  unfold login, try_except.
  match goal with |- context [match ?body b with _ => _ end] =>
    destruct (body b) as [[ok|e] b'] end.
  - by eexists _, _.
  - simpl. destruct (is_ChallengeRequired e); by eexists _, _.
Qed.

(** Without a session file [login] starts with the fresh login, and
    the calls it makes come on top of the record. *)
Lemma login_history (Q : Platform) b :
  session_file_exists Q = false →
  ∃ later answered,
    history (client (login Q b).2)
      = later ++ (CallLogin (username b) (password b), answered) :: history (client b).
Proof.
  intros Hnone.
  unfold login, try_except, session_login, fresh_login, try_except.
  rewrite Hnone.
  unfold bind, ret, get, client_login, dump_settings, input, challenge_code_handler,
    call, calls. simpl.
  split_answers;
    first
      [ by (eexists [], _)
      | by (eexists [_], _)
      | by (eexists [_; _], _)
      | by (eexists [_; _; _], _)
      | by (eexists [_; _; _; _], _) ].
Qed.

(** What a failed restore leaves behind: the failed [load_settings],
    or the [load_settings] that returned and the [login] that raised. *)
Lemma session_login_raises b e :
  session_file_exists P = true →
  load_settings_at P (calls b) = Raise e ∨
  (load_settings_at P (calls b) = Ok tt ∧ login_at P (S (calls b)) = Raise e) →
  ∃ b1, session_login P b = (Ok false, b1) ∧
        username b1 = username b ∧ password b1 = password b.
Proof.
  intros Hfile Hraises. unfold session_login, try_except. rewrite Hfile.
  unfold bind, get, load_settings, client_login, call. simpl.
  destruct Hraises as [Hload|[Hload Hlogin]].
  - rewrite Hload. simpl. by eexists.
  - rewrite Hload. simpl. unfold calls in *. simpl. rewrite Hlogin. simpl. by eexists.
Qed.

(** When the attempt on the session has not returned [True], [login]
    goes on as it does when there is no session file. *)
Lemma login_after_session b b1 :
  session_login P b = (Ok false, b1) →
  login P b = login (no_session_file P) b1.
Proof.
  intros Hsession. unfold login, try_except.
  unfold bind at 1. rewrite Hsession. done.
Qed.

(** C7.  [login] never raises: it returns a boolean whatever the
    platform answers.  When a session file exists and restoring it
    raises, in [load_settings] or in the login that follows it, the
    exception stops there and [login] goes on exactly as it does
    without a session file: the next call is the fresh login with the
    user name and the password. *)
Theorem login_falls_back_and_never_raises b :
  (∃ ok b', login P b = (Ok ok, b')) ∧
  (∀ e,
     session_file_exists P = true →
     load_settings_at P (calls b) = Raise e ∨
     (load_settings_at P (calls b) = Ok tt ∧ login_at P (S (calls b)) = Raise e) →
     ∃ b1,
       session_login P b = (Ok false, b1) ∧
       login P b = login (no_session_file P) b1 ∧
       ∃ later answered,
         history (client (login P b).2)
           = later ++ (CallLogin (username b) (password b), answered)
               :: history (client b1)).
Proof.
  split; [apply login_returns|].
  intros e Hfile Hraises.
  destruct (session_login_raises b e Hfile Hraises) as (b1 & Hsession & Huser & Hpass).
  exists b1. split; [done|].
  rewrite (login_after_session b b1 Hsession). split; [done|].
  rewrite <- Huser, <- Hpass.
  by apply login_history.
Qed.
End SessionFacts.

(** ** Configuration *)

Lemma truthy_false v : truthy v = false ↔ unset v.
Proof.
  unfold unset. destruct v as [s|]; simpl.
  - case_bool_decide; naive_solver.
  - naive_solver.
Qed.

Lemma truthy_true v s : v = Some s → s ≠ EmptyString → truthy v = true.
Proof. intros -> Hs. simpl. by rewrite bool_decide_eq_false_2. Qed.

(** C8, as the code has it.  [main] reads [YOUR_USERNAME],
    [YOUR_PASSWORD] and [TARGET_USERNAME].  Whatever built-in [int] the
    interpreter has, provided it reads the literal 10 as ten: when [int]
    returns on [CHECK_INTERVAL] (or, in its absence, on the default
    text), then if one of the three is missing or empty, [main] returns
    after logging the error; otherwise it runs the bot with these three,
    with [RESPONSE_MESSAGE] or, in its absence, "Thanks for your
    message!", and with the interval [int] gave, which is 10 when
    [CHECK_INTERVAL] is absent. *)
Theorem main_reads_configuration (int : string → result Z)
    (env : gmap string string) interval :
  int "10" = Ok 10%Z →
  int (default "10" (env !! "CHECK_INTERVAL")) = Ok interval →
  (env !! "CHECK_INTERVAL" = None → interval = 10%Z) ∧
  (unset (env !! "YOUR_USERNAME") ∨ unset (env !! "YOUR_PASSWORD") ∨
   unset (env !! "TARGET_USERNAME") →
   main int env =
     Ok (ReturnedEarly
           ["Missing required environment variables in .env file";
            "Please set: YOUR_USERNAME, YOUR_PASSWORD, TARGET_USERNAME"])) ∧
  (∀ u p t,
     env !! "YOUR_USERNAME" = Some u → u ≠ EmptyString →
     env !! "YOUR_PASSWORD" = Some p → p ≠ EmptyString →
     env !! "TARGET_USERNAME" = Some t → t ≠ EmptyString →
     main int env =
       Ok (RunBot u p t
             (default "Thanks for your message!" (env !! "RESPONSE_MESSAGE")) interval) ∧
     (env !! "RESPONSE_MESSAGE" = None →
      main int env = Ok (RunBot u p t "Thanks for your message!" interval))).
Proof.
  intros Hten Hint. split_and!.
  - intros Habsent. rewrite Habsent in Hint. simpl in Hint. congruence.
  - intros Hmissing. unfold main, getenv. rewrite Hint. simpl.
    destruct Hmissing as [Hm|[Hm|Hm]]; apply truthy_false in Hm; rewrite Hm; simpl;
      rewrite ?andb_false_r; done.
  - intros u p t Hu Hune Hp Hpne Ht Htne. unfold main, getenv. rewrite Hint. simpl.
    rewrite (truthy_true _ u), (truthy_true _ p), (truthy_true _ t) by done.
    simpl. rewrite Hu, Hp, Ht. simpl. split; [done|].
    by intros ->.
Qed.

(** C10.  Whatever built-in [int] the interpreter has: when
    [CHECK_INTERVAL] is set to text on which [int] raises its
    [ValueError], [main] raises that very [ValueError], whatever the
    other variables are: it neither returns early nor builds the bot.
    Without that variable (and with an [int] that reads the literal 10)
    the same environment makes [main] return normally. *)
Theorem invalid_check_interval_raises (int : string → result Z)
    (env : gmap string string) s msg :
  env !! "CHECK_INTERVAL" = Some s →
  int s = Raise (ValueError msg) →
  main int env = Raise (ValueError msg) ∧
  (∀ errors, main int env ≠ Ok (ReturnedEarly errors)) ∧
  (∀ u p t r i, main int env ≠ Ok (RunBot u p t r i)) ∧
  (int "10" = Ok 10%Z → ∃ started, main int (delete "CHECK_INTERVAL" env) = Ok started).
Proof.
  intros Hset Hinvalid.
  assert (main int env = Raise (ValueError msg)) as Hmain.
  { unfold main, getenv. rewrite Hset. simpl. by rewrite Hinvalid. }
  split_and!.
  - done.
  - intros errors. by rewrite Hmain.
  - intros u p t r i. by rewrite Hmain.
  - intros Hten. unfold main, getenv. rewrite lookup_delete_eq. simpl. rewrite Hten.
    destruct (negb _); by eexists.
Qed.

(** ** Thread resolution *)

Section Seeding.
Context (P : Platform).
Implicit Types (b : InstagramBot).

Lemma scan_users_none thread (users : list UserShort.t) b :
  Forall (λ user, Some (UserShort.pk user) ≠ target_user_id b) users →
  scan_users P thread users b = (Ok false, b).
Proof.
  induction 1 as [|user users Hx _ IH]; [done|].
  simpl. unfold bind at 1, get at 1.
  by rewrite bool_decide_eq_false_2.
Qed.

Lemma mark_existing_fetched b tid existing_thread :
  thread_id b = Some tid →
  direct_thread_at P (calls b) tid = Ok existing_thread →
  mark_existing P b =
    (Ok tt, foldl (λ b' msg, marked (DirectMessage.id msg) b')
                  (record_call (CallDirectThread tid) true b)
                  (DirectThread.messages existing_thread)).
Proof.
  intros Htid Hfetch. unfold mark_existing.
  unfold bind at 1, get at 1. rewrite Htid. simpl.
  unfold bind at 1, direct_thread, call. rewrite Hfetch. simpl.
  apply (for_each_marks _ DirectMessage.id (λ _ _, True)); [done | done |].
  by apply Forall_forall.
Qed.

Lemma scan_users_found thread (users : list UserShort.t) b existing_thread :
  Exists (λ user, Some (UserShort.pk user) = target_user_id b) users →
  direct_thread_at P (calls b) (DirectThread.id thread) = Ok existing_thread →
  scan_users P thread users b =
    (Ok true, foldl (λ b' msg, marked (DirectMessage.id msg) b')
                    (record_call (CallDirectThread (DirectThread.id thread)) true
                       (with_thread_id (Some (DirectThread.id thread)) b))
                    (DirectThread.messages existing_thread)).
Proof.
  intros Hex Hfetch.
  induction users as [|user users IH]; [by apply Exists_nil in Hex|].
  simpl. unfold bind at 1, get at 1.
  case_bool_decide as Huser.
  - unfold bind at 1, modify at 1. unfold bind at 1.
    by rewrite (mark_existing_fetched _ (DirectThread.id thread) existing_thread).
  - apply IH. apply Exists_cons in Hex as [Hex|Hex]; done.
Qed.

Lemma scan_threads_found skipped thread rest b existing_thread :
  Forall (λ other,
            Forall (λ user, Some (UserShort.pk user) ≠ target_user_id b)
                   (DirectThread.users other)) skipped →
  Exists (λ user, Some (UserShort.pk user) = target_user_id b)
         (DirectThread.users thread) →
  direct_thread_at P (calls b) (DirectThread.id thread) = Ok existing_thread →
  scan_threads P (skipped ++ thread :: rest) b =
    (Ok true, foldl (λ b' msg, marked (DirectMessage.id msg) b')
                    (record_call (CallDirectThread (DirectThread.id thread)) true
                       (with_thread_id (Some (DirectThread.id thread)) b))
                    (DirectThread.messages existing_thread)).
Proof.
  intros Hskipped Hfound Hfetch.
  induction Hskipped as [|other skipped Hother _ IH]; simpl; unfold bind at 1.
  - by rewrite (scan_users_found thread _ b existing_thread).
  - by rewrite scan_users_none.
Qed.

(** When the fetch of the thread found returns, [get_thread_id] returns
    [True] with the thread id set and the id of every fetched message in
    the set. *)
Lemma get_thread_id_seeds b inbox skipped thread rest existing_thread :
  inbox_at P (calls b) = Ok inbox →
  take 100 inbox = skipped ++ thread :: rest →
  Forall (λ other,
            Forall (λ user, Some (UserShort.pk user) ≠ target_user_id b)
                   (DirectThread.users other)) skipped →
  Exists (λ user, Some (UserShort.pk user) = target_user_id b)
         (DirectThread.users thread) →
  direct_thread_at P (S (calls b)) (DirectThread.id thread) = Ok existing_thread →
  get_thread_id P b =
    (Ok true, foldl (λ b' msg, marked (DirectMessage.id msg) b')
                    (record_call (CallDirectThread (DirectThread.id thread)) true
                       (with_thread_id (Some (DirectThread.id thread))
                          (record_call (CallDirectThreads 100) true b)))
                    (DirectThread.messages existing_thread)).
Proof.
  intros Hinbox Htake Hskipped Hfound Hfetch.
  unfold get_thread_id, try_except.
  unfold bind at 1, direct_threads, call. rewrite Hinbox, Htake. simpl.
  by rewrite (scan_threads_found skipped thread rest _ existing_thread).
Qed.

Lemma scan_users_fetch_raises thread (users : list UserShort.t) b e :
  Exists (λ user, Some (UserShort.pk user) = target_user_id b) users →
  direct_thread_at P (calls b) (DirectThread.id thread) = Raise e →
  scan_users P thread users b =
    (Raise e,
     record_call (CallDirectThread (DirectThread.id thread)) false
       (with_thread_id (Some (DirectThread.id thread)) b)).
Proof.
  intros Hex Hfetch.
  induction users as [|user users IH]; [by apply Exists_nil in Hex|].
  simpl. unfold bind at 1, get at 1.
  case_bool_decide as Huser.
  - unfold bind at 1, modify at 1. unfold bind at 1.
    unfold mark_existing. unfold bind at 1, get at 1. simpl.
    unfold bind at 1, direct_thread, call.
    change (calls (with_thread_id (Some (DirectThread.id thread)) b)) with (calls b).
    by rewrite Hfetch.
  - apply IH. apply Exists_cons in Hex as [Hex|Hex]; done.
Qed.

Lemma scan_threads_fetch_raises skipped thread rest b e :
  Forall (λ other,
            Forall (λ user, Some (UserShort.pk user) ≠ target_user_id b)
                   (DirectThread.users other)) skipped →
  Exists (λ user, Some (UserShort.pk user) = target_user_id b)
         (DirectThread.users thread) →
  direct_thread_at P (calls b) (DirectThread.id thread) = Raise e →
  scan_threads P (skipped ++ thread :: rest) b =
    (Raise e,
     record_call (CallDirectThread (DirectThread.id thread)) false
       (with_thread_id (Some (DirectThread.id thread)) b)).
Proof.
  intros Hskipped Hfound Hfetch.
  induction Hskipped as [|other skipped Hother _ IH]; simpl; unfold bind at 1.
  - by rewrite (scan_users_fetch_raises thread _ b e).
  - by rewrite scan_users_none.
Qed.

(** When the fetch of the thread found raises, [get_thread_id] returns
    [False] with the thread id set all the same and the set as it was. *)
Lemma get_thread_id_fetch_raises b inbox skipped thread rest e :
  inbox_at P (calls b) = Ok inbox →
  take 100 inbox = skipped ++ thread :: rest →
  Forall (λ other,
            Forall (λ user, Some (UserShort.pk user) ≠ target_user_id b)
                   (DirectThread.users other)) skipped →
  Exists (λ user, Some (UserShort.pk user) = target_user_id b)
         (DirectThread.users thread) →
  direct_thread_at P (S (calls b)) (DirectThread.id thread) = Raise e →
  get_thread_id P b =
    (Ok false,
     record_call (CallDirectThread (DirectThread.id thread)) false
       (with_thread_id (Some (DirectThread.id thread))
          (record_call (CallDirectThreads 100) true b))).
Proof.
  intros Hinbox Htake Hskipped Hfound Hfetch.
  unfold get_thread_id, try_except.
  unfold bind at 1, direct_threads, call. rewrite Hinbox, Htake. simpl.
  by rewrite (scan_threads_fetch_raises skipped thread rest _ e).
Qed.
End Seeding.

(** ** What the trim keeps *)

(** The trim reads the set through its enumeration, which knows nothing
    of the order of insertion: under an order that puts [x] first, [x] is
    what a set of more than 100 ids loses, however recently it came. *)
Lemma trim_can_drop_any (x : Z) b :
  x ∈ processed_messages b →
  100 < size (processed_messages b) →
  x ∉ processed_messages (trim_processed (H := front_order x) b).2.
Proof.
  intros Hin Hsize.
  rewrite (trim_large (H := front_order x)) by done. simpl.
  rewrite elem_of_list_to_set. unfold front_first, last_n.
  rewrite decide_True by done.
  pose proof (size_union_alt {[x]} (processed_messages b)) as Hunion.
  rewrite size_singleton in Hunion.
  rewrite (subseteq_union_1_L {[x]} (processed_messages b)) in Hunion
    by by apply singleton_subseteq_l.
  simpl length.
  replace (S (length (elements (processed_messages b ∖ {[x]}))) - 100)
    with (S (length (elements (processed_messages b ∖ {[x]})) - 100)).
  - simpl. intros Hx%subseteq_drop%elem_of_elements. set_solver.
  - change (length (elements (processed_messages b ∖ {[x]})))
      with (size (processed_messages b ∖ {[x]})). lia.
Qed.

(** So a message that has just been answered can be the one forgotten:
    when the set already held 100 ids or more, there is an enumeration
    order under which its id is not in the set after the reply. *)
Lemma answered_message_can_be_forgotten (P : Platform) now message b :
  target_user_id b = Some (DirectMessage.user_id message) →
  DirectMessage.user_id message ≠ user_id (client b) →
  DirectMessage.id message ∉ processed_messages b →
  (time_diff_us now message ≤ five_minutes_us)%Z →
  direct_send_at P (calls b) (response_message b) [DirectMessage.user_id message]
    = Ok tt →
  100 ≤ size (processed_messages b) →
  ∃ order : PySetOrder,
    sent (process_message (H := order) P now message b).2
      = (response_message b, [DirectMessage.user_id message]) :: sent b ∧
    DirectMessage.id message
      ∉ processed_messages (process_message (H := order) P now message b).2.
Proof.
  intros Htarget Hself Hout Hage Hsend Hsize.
  exists (front_order (DirectMessage.id message)).
  rewrite (process_message_send_returns P (H := front_order _)) by done.
  split.
  - by rewrite (trim_sent (H := front_order _)).
  - apply trim_can_drop_any; simpl; [set_solver|].
    rewrite size_add_fresh by done. lia.
Qed.

(** ** Messages already in the set *)

Lemma seen_messages_are_ignored (P : Platform) `{PySetOrder} now
    (messages : list DirectMessage.t) b :
  Forall (λ message, DirectMessage.id message ∈ processed_messages b) messages →
  for_each (process_message P now) messages b = (Ok tt, b).
Proof.
  induction 1 as [|message messages Hseen _ IH]; [done|].
  simpl. unfold bind at 1. by rewrite process_message_seen.
Qed.

(** ** The bound on the set *)

(** Closing a decidable goal by evaluation. *)
Ltac by_evaluation :=
  first [ reflexivity | compute_done ].

(** C1, at inputs where the code departs from it.  Seeding from a thread
    of 101 messages leaves 101 ids in the set, and so does a poll cycle
    that marks one message of the bot's own when the set holds 100 ids:
    neither path trims.  And where the code does trim, after a reply, an
    enumeration order that puts the new id first makes the set lose the
    id just inserted and keep the oldest one. *)
Theorem unanswered_insertions_exceed_the_cap :
  size (processed_messages
          (get_thread_id (steady (thread_with (backlog 101))) bot7).2) = 101 ∧
  size (processed_messages
          (check_and_respond (steady (thread_with [message_at 200 7 0]))
             ten_seconds_us bot7_full).2) = 101 ∧
  processed_messages
    (process_message (H := front_order 101) (steady (thread_with []))
       ten_seconds_us (message_at 101 42 0) bot7_full).2
    = list_to_set (Z.of_nat <$> seq 1 100).
Proof. split_and!; vm_compute; reflexivity. Qed.

(** ** Seeding and the first poll *)

(** C6, at an input where the code departs from it.  The fetch of the
    thread found times out during thread resolution: the thread id is set
    all the same and the set stays empty, so the first poll cycle answers
    message 1, which was in the thread before polling began.  When that
    fetch returns, the same cycle sends nothing. *)
Theorem unseeded_thread_answers_old_message :
  thread_id (run (fetch_fails_at 4 (thread_with [message_at 1 42 0])) [] bot0).2
    = Some "340282366841710300949128" ∧
  processed_messages
    (run (fetch_fails_at 4 (thread_with [message_at 1 42 0])) [] bot0).2 = ∅ ∧
  sent (run (fetch_fails_at 4 (thread_with [message_at 1 42 0])) [ten_seconds_us] bot0).2
    = [("Thanks for your message!", [42%Z])] ∧
  sent (run (steady (thread_with [message_at 1 42 0])) [ten_seconds_us] bot0).2 = [].
Proof. split_and!; vm_compute; reflexivity. Qed.

(** ** Inputs on which a claim fails as stated *)


(** C8 fails on the names: with [USERNAME], [PASSWORD] and
    [TARGET_USERNAME] all set, [main] still returns early for want of
    [YOUR_USERNAME] and [YOUR_PASSWORD], and does not run the bot. *)
Lemma short_names_are_not_read :
  short_named_env !! "USERNAME" = Some "bot" ∧
  short_named_env !! "PASSWORD" = Some "secret" ∧
  short_named_env !! "TARGET_USERNAME" = Some "friend" ∧
  main builtin_int short_named_env =
    Ok (ReturnedEarly
          ["Missing required environment variables in .env file";
           "Please set: YOUR_USERNAME, YOUR_PASSWORD, TARGET_USERNAME"]) ∧
  ∀ u p t r i, main builtin_int short_named_env ≠ Ok (RunBot u p t r i).
Proof.
  split_and!; try by_evaluation.
  intros u p t r i. vm_compute. discriminate.
Qed.

(** ** The theorems at sample inputs *)

Lemma seen_message_is_ignored_at_sample :
  performs Ignore (message_at 1 42 0) (marked 1 bot7)
    (process_message (steady (thread_with [])) ten_seconds_us
       (message_at 1 42 0) (marked 1 bot7)) ∧
  sent (process_message (steady (thread_with [])) ten_seconds_us
          (message_at 1 42 0) (marked 1 bot7)).2 = sent (marked 1 bot7).
Proof. apply seen_message_is_ignored. by_evaluation. Defined.

Lemma own_message_is_marked_only_at_sample :
  performs MarkSeenOnly (message_at 2 7 0) bot7
    (process_message (steady (thread_with [])) ten_seconds_us (message_at 2 7 0) bot7) ∧
  DirectMessage.id (message_at 2 7 0)
    ∈ processed_messages
        (process_message (steady (thread_with [])) ten_seconds_us
           (message_at 2 7 0) bot7).2 ∧
  sent (process_message (steady (thread_with [])) ten_seconds_us
          (message_at 2 7 0) bot7).2 = sent bot7.
Proof. apply own_message_is_marked_only. by_evaluation. Defined.

(** Five messages of the target, all older than five minutes. *)
Lemma stale_target_message_is_marked_only_at_sample :
  (performs MarkSeenOnly (message_at 1 42 0) bot7_polling
     (process_message (steady (thread_with (backlog 5))) (five_minutes_us + 1)
        (message_at 1 42 0) bot7_polling)) ∧
  (check_and_respond (steady (thread_with (backlog 5))) (five_minutes_us + 1)
     bot7_polling).1 = Ok tt ∧
  sent (check_and_respond (steady (thread_with (backlog 5))) (five_minutes_us + 1)
          bot7_polling).2 = sent bot7_polling.
Proof.
  destruct (stale_target_message_is_marked_only
              (steady (thread_with (backlog 5))) (five_minutes_us + 1) bot7_polling)
    as [Hone Hcycle].
  split.
  - apply Hone; by_evaluation.
  - assert (Forall (λ message,
                      target_user_id bot7_polling = Some (DirectMessage.user_id message) ∧
                      (five_minutes_us < time_diff_us (five_minutes_us + 1) message)%Z)
                   (DirectThread.messages (thread_with (backlog 5)))) as Hstale.
    { repeat (constructor; [split; by_evaluation|]). constructor. }
    assert ("340282366841710300949128" ≠ EmptyString) as Hne by by_evaluation.
    destruct (Hcycle "340282366841710300949128" (thread_with (backlog 5))
                eq_refl Hne eq_refl Hstale) as (Hok & Hsent & _).
    by split.
Defined.


(** The send fails on the second message of [mixed_thread]. *)
Lemma failed_send_leaves_message_unmarked_at_sample :
  (check_and_respond (send_fails mixed_thread) ten_seconds_us bot7_polling =
     (Ok tt,
      record_call (CallDirectSend "Thanks for your message!" [42%Z]) false
        (marked 2
           (record_call (CallDirectThread "340282366841710300949128") true
              bot7_polling)))) ∧
  (1%Z ∉ processed_messages
           (check_and_respond (send_fails mixed_thread) ten_seconds_us bot7_polling).2) ∧
  processed_messages
    (check_and_respond (send_fails mixed_thread) ten_seconds_us bot7_polling).2
    = processed_messages
        (marked 2
           (record_call (CallDirectThread "340282366841710300949128") true
              bot7_polling)) ∧
  sent (check_and_respond (send_fails mixed_thread) ten_seconds_us bot7_polling).2
    = sent (marked 2
              (record_call (CallDirectThread "340282366841710300949128") true
                 bot7_polling)).
Proof.
  apply (failed_send_leaves_message_unmarked (send_fails mixed_thread)
           ten_seconds_us bot7_polling "340282366841710300949128" mixed_thread
           [message_at 2 7 0] (message_at 1 42 0) [message_at 3 42 0]
           (marked 2 (record_call (CallDirectThread "340282366841710300949128") true
                        bot7_polling))
           (OtherError "feedback_required"));
    by_evaluation.
Defined.

Lemma login_falls_back_at_sample :
  ∃ b1,
    session_login corrupt_session bot0 = (Ok false, b1) ∧
    login corrupt_session bot0 = login (no_session_file corrupt_session) b1 ∧
    ∃ later answered,
      history (client (login corrupt_session bot0).2)
        = later ++ (CallLogin (username bot0) (password bot0), answered)
            :: history (client b1).
Proof.
  apply (proj2 (login_falls_back_and_never_raises corrupt_session bot0)
           (OtherError "Expecting value: line 1 column 1 (char 0)")).
  - reflexivity.
  - left. reflexivity.
Defined.

Lemma main_reads_configuration_at_sample :
  main builtin_int plain_env
    = Ok (RunBot "bot" "secret" "friend" "Thanks for your message!" 10).
Proof.
  destruct (main_reads_configuration builtin_int plain_env 10%Z) as (_ & _ & Hrun);
    [reflexivity|reflexivity|].
  assert ("bot" ≠ EmptyString) as Hu by by_evaluation.
  assert ("secret" ≠ EmptyString) as Hp by by_evaluation.
  assert ("friend" ≠ EmptyString) as Ht by by_evaluation.
  exact (proj2 (Hrun "bot" "secret" "friend" eq_refl Hu eq_refl Hp eq_refl Ht) eq_refl).
Defined.

Lemma invalid_check_interval_raises_at_sample :
  main builtin_int (<["CHECK_INTERVAL" := "ten"]> plain_env)
    = Raise (ValueError "invalid literal for int() with base 10") ∧
  (∀ errors,
     main builtin_int (<["CHECK_INTERVAL" := "ten"]> plain_env)
       ≠ Ok (ReturnedEarly errors)) ∧
  (∀ u p t r i,
     main builtin_int (<["CHECK_INTERVAL" := "ten"]> plain_env) ≠ Ok (RunBot u p t r i)) ∧
  ∃ started,
    main builtin_int (delete "CHECK_INTERVAL" (<["CHECK_INTERVAL" := "ten"]> plain_env))
      = Ok started.
Proof.
  destruct (invalid_check_interval_raises builtin_int
              (<["CHECK_INTERVAL" := "ten"]> plain_env) "ten"
              "invalid literal for int() with base 10")
    as (Hraises & Hearly & Hrun & Hwithout); [reflexivity|reflexivity|].
  split_and!; [exact Hraises|exact Hearly|exact Hrun|].
  apply Hwithout. reflexivity.
Defined.

(** * Further properties of the poller *)

(** ** What one message can do *)

Lemma same_settings_refl b : same_settings b b.
Proof. by repeat split. Qed.

Lemma same_settings_trans b1 b2 b3 :
  same_settings b1 b2 → same_settings b2 b3 → same_settings b1 b3.
Proof.
  unfold same_settings. intros (?&?&?&?&?&?&?) (?&?&?&?&?&?&?).
  split_and!; congruence.
Qed.

Lemma is_reply_of_settings b b' s :
  same_settings b b' → is_reply_of b' s → is_reply_of b s.
Proof.
  intros (_&_&_&_&Hresponse&Htarget&_) (target & Ht & ->).
  exists target. by rewrite <- Htarget, <- Hresponse.
Qed.

Lemma replies_since_refl n b : replies_since n b b.
Proof. exists []. split_and!; [done | simpl; lia | done]. Qed.

Lemma replies_since_quiet n b b' : sent b' = sent b → replies_since n b b'.
Proof. intros Hsent. exists []. split_and!; [done | simpl; lia | done]. Qed.

Lemma replies_since_trans n1 n2 b1 b2 b3 :
  same_settings b1 b2 →
  replies_since n1 b1 b2 → replies_since n2 b2 b3 → replies_since (n1 + n2) b1 b3.
Proof.
  intros Hsame (new1 & Hsent1 & Hlen1 & Hall1) (new2 & Hsent2 & Hlen2 & Hall2).
  exists (new2 ++ new1). split_and!.
  - by rewrite Hsent2, Hsent1, (assoc_L (++)).
  - rewrite length_app. lia.
  - apply Forall_app. split; [|done].
    eapply Forall_impl; [exact Hall2|]. intros s. by apply is_reply_of_settings.
Qed.

Lemma replies_since_le n m b b' : n ≤ m → replies_since n b b' → replies_since m b b'.
Proof. intros Hle (new & ? & ? & ?). exists new. split_and!; [done | lia | done]. Qed.

Section Steps.
Context (P : Platform) `{PySetOrder}.
Implicit Types (b : InstagramBot) (message : DirectMessage.t).

Lemma trim_settings b : same_settings b (trim_processed b).2.
Proof.
  unfold trim_processed, bind, get. simpl. case_decide; by repeat split.
Qed.

(** Whatever a message is and whatever the send does, the loop body
    keeps the settings, adds no id but the message's, and delivers at
    most one message, a reply. *)
Lemma process_message_effect now message b :
  same_settings b (process_message P now message b).2 ∧
  processed_messages (process_message P now message b).2
    ⊆ {[DirectMessage.id message]} ∪ processed_messages b ∧
  replies_since 1 b (process_message P now message b).2.
Proof.
  destruct (decide (DirectMessage.id message ∈ processed_messages b)) as [Hin|Hout].
  { rewrite process_message_seen by done. simpl.
    split_and!; [by repeat split | set_solver | by apply replies_since_quiet]. }
  destruct (decide (DirectMessage.user_id message = user_id (client b))) as [Hself|Hself].
  { rewrite process_message_self by done. simpl.
    split_and!; [by repeat split | done | by apply replies_since_quiet]. }
  destruct (decide (target_user_id b = Some (DirectMessage.user_id message)))
    as [Htarget|Htarget].
  2: { rewrite process_message_other by done. simpl.
       split_and!; [by repeat split | set_solver | by apply replies_since_quiet]. }
  destruct (decide (five_minutes_us < time_diff_us now message)%Z) as [Hold|Hfresh].
  { rewrite process_message_stale by done. simpl.
    split_and!; [by repeat split | done | by apply replies_since_quiet]. }
  destruct (direct_send_at P (calls b) (response_message b)
              [DirectMessage.user_id message]) as [[]|e] eqn:Hsend.
  - rewrite process_message_send_returns by (done || lia).
    split_and!.
    + eapply same_settings_trans; [|apply trim_settings]. by repeat split.
    + etrans; [apply trim_subseteq|]. done.
    + unfold replies_since. rewrite trim_sent.
      exists [(response_message b, [DirectMessage.user_id message])].
      split_and!; [done | simpl; lia |].
      apply Forall_singleton. by eexists.
  - rewrite (process_message_send_raises P now message b e) by (done || lia). simpl.
    split_and!; [by repeat split | set_solver | by apply replies_since_quiet].
Qed.

(** The same for a whole pass over a list of messages, raised or not. *)
Lemma for_each_process_effect now (messages : list DirectMessage.t) b :
  same_settings b (for_each (process_message P now) messages b).2 ∧
  processed_messages (for_each (process_message P now) messages b).2
    ⊆ list_to_set (DirectMessage.id <$> messages) ∪ processed_messages b ∧
  replies_since (length messages) b (for_each (process_message P now) messages b).2.
Proof.
  revert b. induction messages as [|message messages IH]; intros b.
  { simpl. split_and!; [apply same_settings_refl | set_solver | apply replies_since_refl]. }
  destruct (process_message_effect now message b) as (Hsame & Hsub & Hsent).
  simpl. unfold bind.
  destruct (process_message P now message b) as [[[]|e] b1]; simpl in *.
  - destruct (IH b1) as (Hsame' & Hsub' & Hsent').
    split_and!.
    + by eapply same_settings_trans.
    + set_solver.
    + by apply (replies_since_trans 1 (length messages) b b1).
  - split_and!; [done | set_solver |].
    eapply replies_since_le; [|done]. lia.
Qed.
End Steps.

(** ** What one poll cycle can do *)

Section CycleEffects.
Context (P : Platform) `{PySetOrder}.
Implicit Types (b : InstagramBot) (message : DirectMessage.t).

(** A message of someone who is neither the bot's account nor the target
    changes nothing, whatever its age and whether or not its id is in the
    set: it is neither answered nor marked. *)
Theorem third_party_message_is_left_alone now message b :
  DirectMessage.user_id message ≠ user_id (client b) →
  target_user_id b ≠ Some (DirectMessage.user_id message) →
  process_message P now message b = (Ok tt, b).
Proof.
  intros Hself Htarget.
  destruct (decide (DirectMessage.id message ∈ processed_messages b)).
  - by apply process_message_seen.
  - by apply process_message_other.
Qed.

(** A cycle that cannot read the thread does nothing to the bot: without
    a thread id (none, or the empty string) it makes no call at all, and
    when the fetch raises it returns normally with the failed call as the
    only trace. *)
Theorem cycle_without_thread_changes_nothing now b :
  (falsy (thread_id b) = true → check_and_respond P now b = (Ok tt, b)) ∧
  (∀ tid e,
     thread_id b = Some tid → tid ≠ EmptyString →
     direct_thread_at P (calls b) tid = Raise e →
     check_and_respond P now b = (Ok tt, record_call (CallDirectThread tid) false b)).
Proof.
  split.
  - intros Hnone. unfold check_and_respond, try_except.
    unfold bind at 1, get at 1. by rewrite Hnone.
  - intros tid e Htid Hne Hfetch. unfold check_and_respond, try_except.
    unfold bind at 1, get at 1. rewrite Htid. simpl.
    rewrite bool_decide_eq_false_2 by done.
    unfold bind at 1, direct_thread, call. by rewrite Hfetch.
Qed.

(** The state a cycle ends in is the state its body ends in. *)
Lemma check_and_respond_cases now b :
  check_and_respond P now b = (Ok tt, b) ∨
  (∃ tid, thread_id b = Some tid ∧
     ((is_ok (direct_thread_at P (calls b) tid) = false ∧
       check_and_respond P now b = (Ok tt, record_call (CallDirectThread tid) false b)) ∨
      (∃ thread, direct_thread_at P (calls b) tid = Ok thread ∧
         (check_and_respond P now b).2 =
           (for_each (process_message P now) (DirectThread.messages thread)
              (record_call (CallDirectThread tid) true b)).2))).
Proof.
  destruct (falsy (thread_id b)) eqn:Hfalsy.
  { left. unfold check_and_respond, try_except.
    unfold bind at 1, get at 1. by rewrite Hfalsy. }
  right. destruct (thread_id b) as [tid|] eqn:Htid; [|done].
  exists tid. split; [done|].
  simpl in Hfalsy. apply bool_decide_eq_false in Hfalsy.
  destruct (direct_thread_at P (calls b) tid) as [thread|e] eqn:Hfetch.
  - right. exists thread. split; [done|].
    rewrite (check_and_respond_fetched P now b tid thread) by done.
    unfold try_except.
    by destruct (for_each _ _ _) as [[[]|e] b'].
  - left. split; [done|].
    unfold check_and_respond, try_except.
    unfold bind at 1, get at 1. rewrite Htid. simpl.
    rewrite bool_decide_eq_false_2 by done.
    unfold bind at 1, direct_thread, call. by rewrite Hfetch.
Qed.

Lemma check_and_respond_effect now b :
  same_settings b (check_and_respond P now b).2 ∧
  (∃ new,
     sent (check_and_respond P now b).2 = new ++ sent b ∧
     Forall (is_reply_of b) new ∧
     ∀ thread,
       direct_thread_at P (calls b) (default EmptyString (thread_id b)) = Ok thread →
       length new ≤ length (DirectThread.messages thread)) ∧
  (∀ x,
     x ∈ processed_messages (check_and_respond P now b).2 →
     x ∈ processed_messages b ∨
     ∃ thread message,
       direct_thread_at P (calls b) (default EmptyString (thread_id b)) = Ok thread ∧
       message ∈ DirectThread.messages thread ∧ DirectMessage.id message = x).
Proof.
  destruct (check_and_respond_cases now b)
    as [Heq|(tid & Htid & [[Hfail Heq]|(thread & Hfetch & Heq)])].
  - rewrite Heq. simpl. split_and!.
    + apply same_settings_refl.
    + exists []. split_and!; [done | done | simpl; lia].
    + by left.
  - rewrite Heq. simpl. split_and!.
    + by repeat split.
    + exists []. split_and!; [done | done | simpl; lia].
    + by left.
  - rewrite Heq, Htid. simpl.
    destruct (for_each_process_effect P now (DirectThread.messages thread)
                (record_call (CallDirectThread tid) true b))
      as (Hsame & Hsub & (new & Hsent & Hlen & Hall)).
    split_and!.
    + eapply same_settings_trans; [|exact Hsame]. by repeat split.
    + exists new. split_and!; [done | |].
      * eapply Forall_impl; [exact Hall|]. intros s.
        apply is_reply_of_settings. by repeat split.
      * intros thread' Hfetch'. congruence.
    + intros x Hx. apply Hsub in Hx. apply elem_of_union in Hx as [Hx|Hx].
      * right. apply elem_of_list_to_set, list_elem_of_fmap in Hx as (message & -> & Hin).
        by exists thread, message.
      * by left.
Qed.

(** Whatever the platform answers, a poll cycle keeps the settings and
    the thread id, and all it delivers are replies: the configured
    response, to the target alone, at most one for each message of the
    fetched thread; and it puts no id in the set but ids of that thread. *)
Theorem poll_cycle_only_replies now b :
  same_settings b (check_and_respond P now b).2 ∧
  (∃ new,
     sent (check_and_respond P now b).2 = new ++ sent b ∧
     Forall (is_reply_of b) new ∧
     ∀ thread,
       direct_thread_at P (calls b) (default EmptyString (thread_id b)) = Ok thread →
       length new ≤ length (DirectThread.messages thread)) ∧
  (∀ x,
     x ∈ processed_messages (check_and_respond P now b).2 →
     x ∈ processed_messages b ∨
     ∃ thread message,
       direct_thread_at P (calls b) (default EmptyString (thread_id b)) = Ok thread ∧
       message ∈ DirectThread.messages thread ∧ DirectMessage.id message = x).
Proof. apply check_and_respond_effect. Qed.
End CycleEffects.

(** ** Two cycles over the same thread *)

Lemma size_add_le (x : Z) (s : gset Z) : size ({[x]} ∪ s) ≤ S (size s).
Proof.
  destruct (decide (x ∈ s)) as [Hin|Hout].
  - rewrite (subseteq_union_1_L {[x]} s) by by apply singleton_subseteq_l. lia.
  - by rewrite size_add_fresh.
Qed.

Section Settled.
Context (P : Platform) `{PySetOrder}.
Implicit Types (b : InstagramBot) (message : DirectMessage.t).

(** One message when every send returns and the set is not full: the
    body returns, the set grows by the message's id at most, and the id
    of a message of the bot or of the target is in it afterwards. *)
Lemma process_message_settles now message b :
  (∀ n text user_ids, direct_send_at P n text user_ids = Ok tt) →
  size (processed_messages b) < 100 →
  ∃ b',
    process_message P now message b = (Ok tt, b') ∧
    same_settings b b' ∧
    processed_messages b ⊆ processed_messages b' ∧
    processed_messages b' ⊆ {[DirectMessage.id message]} ∪ processed_messages b ∧
    (DirectMessage.user_id message = user_id (client b) ∨
     target_user_id b = Some (DirectMessage.user_id message) →
     DirectMessage.id message ∈ processed_messages b').
Proof.
  intros Hsends Hsize.
  destruct (decide (DirectMessage.id message ∈ processed_messages b)) as [Hin|Hout].
  { exists b. rewrite process_message_seen by done.
    split_and!; [done | apply same_settings_refl | done | set_solver | done]. }
  destruct (decide (DirectMessage.user_id message = user_id (client b))) as [Hself|Hself].
  { exists (marked (DirectMessage.id message) b). rewrite process_message_self by done.
    split_and!; [done | by repeat split | set_solver | done | set_solver]. }
  destruct (decide (target_user_id b = Some (DirectMessage.user_id message)))
    as [Htarget|Htarget].
  2: { exists b. rewrite process_message_other by done.
       split_and!; [done | apply same_settings_refl | done | set_solver | tauto]. }
  destruct (decide (five_minutes_us < time_diff_us now message)%Z) as [Hold|Hfresh].
  { exists (marked (DirectMessage.id message) b). rewrite process_message_stale by done.
    split_and!; [done | by repeat split | set_solver | done | set_solver]. }
  eexists. rewrite process_message_send_returns by (done || lia).
  rewrite trim_small by (simpl; rewrite size_add_fresh by done; lia).
  split_and!; [done | by repeat split | set_solver | done | set_solver].
Qed.

Lemma for_each_process_settles now (messages : list DirectMessage.t) b :
  (∀ n text user_ids, direct_send_at P n text user_ids = Ok tt) →
  size (processed_messages b) + length messages ≤ 100 →
  ∃ b',
    for_each (process_message P now) messages b = (Ok tt, b') ∧
    same_settings b b' ∧
    processed_messages b ⊆ processed_messages b' ∧
    ∀ message,
      message ∈ messages →
      DirectMessage.user_id message = user_id (client b) ∨
      target_user_id b = Some (DirectMessage.user_id message) →
      DirectMessage.id message ∈ processed_messages b'.
Proof.
  intros Hsends. revert b.
  induction messages as [|message messages IH]; intros b Hsize.
  { exists b. split_and!; [done | apply same_settings_refl | done |].
    by intros message Hin%elem_of_nil. }
  simpl in Hsize.
  destruct (process_message_settles now message b Hsends)
    as (b1 & Hstep & Hsame1 & Hgrow1 & Hbound1 & Hmarked1); [lia|].
  assert (size (processed_messages b1) ≤ S (size (processed_messages b))) as Hsize1.
  { etrans; [apply (subseteq_size _ _ Hbound1) | apply size_add_le]. }
  destruct (IH b1) as (b2 & Hrest & Hsame2 & Hgrow2 & Hmarked2); [lia|].
  exists b2. simpl. unfold bind. rewrite Hstep.
  split_and!; [done | by eapply same_settings_trans | set_solver |].
  destruct Hsame1 as (Hid & _ & _ & _ & _ & Htarget & _).
  intros message' [->|Hin]%elem_of_cons Hours.
  - apply Hgrow2, Hmarked1, Hours.
  - apply Hmarked2; [done|]. by rewrite Hid, Htarget.
Qed.

(** A pass over messages that are all in the set or all third parties'
    changes nothing, at whatever time. *)
Lemma for_each_process_settled now (messages : list DirectMessage.t) b :
  (∀ message,
     message ∈ messages →
     DirectMessage.id message ∈ processed_messages b ∨
     (DirectMessage.user_id message ≠ user_id (client b) ∧
      target_user_id b ≠ Some (DirectMessage.user_id message))) →
  for_each (process_message P now) messages b = (Ok tt, b).
Proof.
  induction messages as [|message messages IH]; intros Hall; [done|].
  simpl. unfold bind.
  assert (process_message P now message b = (Ok tt, b)) as ->.
  { destruct (Hall message) as [Hseen|[Hself Htarget]]; [by left | |].
    - by apply process_message_seen.
    - destruct (decide (DirectMessage.id message ∈ processed_messages b)).
      + by apply process_message_seen.
      + by apply process_message_other. }
  apply IH. intros message' Hin. apply Hall. by right.
Qed.

(** No double replies.  When every send returns and the set has room
    for the ids of the thread, a later cycle that fetches no message the
    earlier one did not see sends nothing and marks nothing, at whatever
    time: its fetch is the only call it makes. *)
Theorem settled_thread_is_not_answered_again now later b tid thread again :
  (∀ n text user_ids, direct_send_at P n text user_ids = Ok tt) →
  thread_id b = Some tid → tid ≠ EmptyString →
  direct_thread_at P (calls b) tid = Ok thread →
  size (processed_messages b) + length (DirectThread.messages thread) ≤ 100 →
  direct_thread_at P (calls (check_and_respond P now b).2) tid = Ok again →
  DirectThread.messages again ⊆ DirectThread.messages thread →
  check_and_respond P later (check_and_respond P now b).2 =
    (Ok tt, record_call (CallDirectThread tid) true (check_and_respond P now b).2).
Proof.
  intros Hsends Htid Hne Hfetch Hsize Hfetch' Hsub.
  destruct (for_each_process_settles now (DirectThread.messages thread)
              (record_call (CallDirectThread tid) true b) Hsends)
    as (b1 & Hpass & Hsame & _ & Hmarked); [done|].
  assert (check_and_respond P now b = (Ok tt, b1)) as Hfirst.
  { rewrite (check_and_respond_fetched P now b tid thread) by done.
    unfold try_except. by rewrite Hpass. }
  rewrite Hfirst in *. simpl in Hfetch' |- *.
  destruct Hsame as (Hid & _ & _ & _ & _ & Htarget & Hthread).
  rewrite (check_and_respond_fetched P later b1 tid again);
    [| by rewrite Hthread | done | done].
  unfold try_except. rewrite for_each_process_settled; [done|].
  intros message Hin.
  destruct (decide (DirectMessage.user_id message = user_id (client b1))) as [Hself|Hself].
  { left. apply Hmarked; [by apply Hsub|]. left. by rewrite <- Hid. }
  destruct (decide (target_user_id b1 = Some (DirectMessage.user_id message)))
    as [Hours|Hother].
  { left. apply Hmarked; [by apply Hsub|]. right. by rewrite <- Htarget. }
  right. by split.
Qed.
End Settled.

(** ** Looking up the target and the thread *)

Lemma sends_of_record_call c ok b :
  is_send_call c = false → sent (record_call c ok b) = sent b.
Proof. intros Hc. unfold sent. simpl. by destruct c, ok. Qed.

Lemma thread_id_foldl_marked {A} (key : A → Z) (l : list A) b :
  thread_id (foldl (λ b' x, marked (key x) b') b l) = thread_id b.
Proof. revert b. induction l as [|x l IH]; intros b; [done|]. simpl. by rewrite IH. Qed.

Lemma same_identity_foldl_marked {A} (key : A → Z) (l : list A) b :
  same_identity b (foldl (λ b' x, marked (key x) b') b l).
Proof.
  revert b. induction l as [|x l IH]; intros b; simpl; [by repeat split|].
  destruct (IH (marked (key x) b)) as (?&?&?&?&?&?). by repeat split.
Qed.

Lemma same_identity_trans b1 b2 b3 :
  same_identity b1 b2 → same_identity b2 b3 → same_identity b1 b3.
Proof.
  unfold same_identity. intros (?&?&?&?&?&?) (?&?&?&?&?&?).
  split_and!; congruence.
Qed.

Section Lookup.
Context (P : Platform).
Implicit Types (b : InstagramBot).

(** [get_target_user_id] returns whether the lookup returned.  When it
    did, the target is the [pk] looked up; when it raised, the target is
    what it was.  Either way the lookup of [target_username] is the
    only call made and nothing else changes. *)
Theorem target_lookup_sets_target_or_leaves_it b :
  (∀ user_info,
     user_info_by_username_at P (calls b) (target_username b) = Ok user_info →
     get_target_user_id P b =
       (Ok true,
        with_target_user_id (Some (UserShort.pk user_info))
          (record_call (CallUserInfoByUsername (target_username b)) true b))) ∧
  (∀ e,
     user_info_by_username_at P (calls b) (target_username b) = Raise e →
     get_target_user_id P b =
       (Ok false, record_call (CallUserInfoByUsername (target_username b)) false b)).
Proof.
  split.
  - intros user_info Hlookup. unfold get_target_user_id, try_except.
    unfold bind at 1, get at 1. unfold bind at 1, user_info_by_username, call.
    by rewrite Hlookup.
  - intros e Hlookup. unfold get_target_user_id, try_except.
    unfold bind at 1, get at 1. unfold bind at 1, user_info_by_username, call.
    by rewrite Hlookup.
Qed.

Lemma scan_threads_none (threads : list DirectThread.t) b :
  Forall (λ thread, ¬ with_target b thread) threads →
  scan_threads P threads b = (Ok false, b).
Proof.
  induction 1 as [|thread threads Hnone _ IH]; [done|].
  simpl. unfold bind at 1. rewrite scan_users_none; [done|].
  apply Forall_forall. intros user Hin Htarget.
  apply Hnone. unfold with_target. apply Exists_exists. by exists user.
Qed.

(** Thread resolution that finds nothing changes nothing.  When none of
    the first 100 threads of the inbox has the target among its users,
    wherever else the target may be, or when listing the threads raises,
    [get_thread_id] returns [False] with the thread id and the set as
    they were: listing the threads is the only call. *)
Theorem thread_resolution_without_match b :
  (∀ inbox,
     inbox_at P (calls b) = Ok inbox →
     Forall (λ thread, ¬ with_target b thread) (take 100 inbox) →
     get_thread_id P b = (Ok false, record_call (CallDirectThreads 100) true b)) ∧
  (∀ e,
     inbox_at P (calls b) = Raise e →
     get_thread_id P b = (Ok false, record_call (CallDirectThreads 100) false b)).
Proof.
  split.
  - intros inbox Hinbox Hnone. unfold get_thread_id, try_except.
    unfold bind at 1, direct_threads, call. rewrite Hinbox. simpl.
    by rewrite scan_threads_none.
  - intros e Hinbox. unfold get_thread_id, try_except.
    unfold bind at 1, direct_threads, call. by rewrite Hinbox.
Qed.

(** Thread resolution takes the first thread that has the target among
    its users, whatever follows it in the inbox.  When the fetch of that
    thread returns, [get_thread_id] returns [True], the thread id is
    that thread's, the id of every fetched message has joined the set,
    and nothing has been sent. *)
Theorem thread_resolution_seeds_first_match
    b inbox skipped thread rest existing_thread :
  inbox_at P (calls b) = Ok inbox →
  take 100 inbox = skipped ++ thread :: rest →
  Forall (λ other, ¬ with_target b other) skipped →
  with_target b thread →
  direct_thread_at P (S (calls b)) (DirectThread.id thread) = Ok existing_thread →
  (get_thread_id P b).1 = Ok true ∧
  thread_id (get_thread_id P b).2 = Some (DirectThread.id thread) ∧
  processed_messages (get_thread_id P b).2
    = list_to_set (DirectMessage.id <$> DirectThread.messages existing_thread)
        ∪ processed_messages b ∧
  sent (get_thread_id P b).2 = sent b.
Proof.
  intros Hinbox Htake Hskipped Hfound Hfetch.
  rewrite (get_thread_id_seeds P b inbox skipped thread rest existing_thread);
    [| done | done | | done | done].
  - simpl. rewrite thread_id_foldl_marked, processed_foldl_marked, sent_foldl_marked.
    done.
  - eapply Forall_impl; [exact Hskipped|]. intros other Hnone.
    apply Forall_forall. intros user Hin Htarget.
    apply Hnone. unfold with_target. apply Exists_exists. by exists user.
Qed.
End Lookup.

Section Resolution.
Context (P : Platform).
Implicit Types (b : InstagramBot).

Lemma mark_existing_returns b existing_thread :
  direct_thread_at P (calls b) (default EmptyString (thread_id b)) = Ok existing_thread →
  mark_existing P b =
    (Ok tt, foldl (λ b' msg, marked (DirectMessage.id msg) b')
                  (record_call (CallDirectThread (default EmptyString (thread_id b))) true b)
                  (DirectThread.messages existing_thread)).
Proof.
  intros Hfetch. unfold mark_existing.
  unfold bind at 1, get at 1.
  unfold bind at 1, direct_thread, call. rewrite Hfetch. simpl.
  apply (for_each_marks _ DirectMessage.id (λ _ _, True)); [done | done |].
  by apply Forall_forall.
Qed.

Lemma mark_existing_raises b e :
  direct_thread_at P (calls b) (default EmptyString (thread_id b)) = Raise e →
  mark_existing P b =
    (Raise e,
     record_call (CallDirectThread (default EmptyString (thread_id b))) false b).
Proof.
  intros Hfetch. unfold mark_existing.
  unfold bind at 1, get at 1.
  unfold bind at 1, direct_thread, call. by rewrite Hfetch.
Qed.

Lemma mark_existing_effect b :
  same_identity b (mark_existing P b).2 ∧
  thread_id (mark_existing P b).2 = thread_id b ∧
  sent (mark_existing P b).2 = sent b ∧
  processed_messages b ⊆ processed_messages (mark_existing P b).2.
Proof.
  destruct (direct_thread_at P (calls b) (default EmptyString (thread_id b)))
    as [existing_thread|e] eqn:Hfetch.
  - rewrite (mark_existing_returns b existing_thread Hfetch). simpl.
    rewrite thread_id_foldl_marked, sent_foldl_marked, processed_foldl_marked.
    split_and!; [| done | done | set_solver].
    eapply same_identity_trans; [|apply same_identity_foldl_marked]. by repeat split.
  - rewrite (mark_existing_raises b e Hfetch).
    split_and!; [by repeat split | done | done | done].
Qed.

Lemma scan_users_effect thread (users : list UserShort.t) b :
  (∀ user, user ∈ users → user ∈ DirectThread.users thread) →
  scan_users P thread users b = (Ok false, b) ∨
  resolved_to thread b (scan_users P thread users b).
Proof.
  induction users as [|user users IH]; intros Hsub; [by left|].
  assert (scan_users P thread (user :: users) b =
          if bool_decide (Some (UserShort.pk user) = target_user_id b)
          then match mark_existing P (with_thread_id (Some (DirectThread.id thread)) b) with
               | (Ok _, b') => (Ok true, b')
               | (Raise e, b') => (Raise e, b')
               end
          else scan_users P thread users b) as ->.
  { simpl. unfold bind at 1, get at 1. case_bool_decide; [|done].
    unfold bind at 1, modify at 1. by unfold bind at 1. }
  case_bool_decide as Huser.
  - right.
    destruct (mark_existing_effect (with_thread_id (Some (DirectThread.id thread)) b))
      as (Hsame & Hthread & Hsent & Hsub').
    assert (with_target b thread) as Hwith.
    { apply Exists_exists. exists user. split; [|done]. apply Hsub. by left. }
    destruct (mark_existing P (with_thread_id (Some (DirectThread.id thread)) b))
      as [[[]|e] b'] eqn:Hmark; simpl in *; by split_and!.
  - apply IH. intros user' Hin. apply Hsub. by right.
Qed.

Lemma scan_threads_effect (threads : list DirectThread.t) b :
  scan_threads P threads b = (Ok false, b) ∨
  ∃ thread, thread ∈ threads ∧ resolved_to thread b (scan_threads P threads b).
Proof.
  induction threads as [|thread threads IH]; [by left|].
  assert (scan_threads P (thread :: threads) b =
          match scan_users P thread (DirectThread.users thread) b with
          | (Ok true, b') => (Ok true, b')
          | (Ok false, b') => scan_threads P threads b'
          | (Raise e, b') => (Raise e, b')
          end) as ->.
  { simpl. unfold bind at 1.
    by destruct (scan_users P thread (DirectThread.users thread) b) as [[[]|e] b']. }
  destruct (scan_users_effect thread (DirectThread.users thread) b) as [Hnone|Hfound];
    [done | |].
  - rewrite Hnone. destruct IH as [IH|(thread' & Hin & IH)]; [by left|].
    right. exists thread'. split; [by right | done].
  - right. exists thread. split; [by left|].
    destruct (scan_users P thread (DirectThread.users thread) b) as [[[]|e] b'];
      [done | | done].
    by destruct Hfound as (_ & Hfalse & _).
Qed.

Lemma get_thread_id_effect b :
  (∃ found, (get_thread_id P b).1 = Ok found) ∧
  same_identity b (get_thread_id P b).2 ∧
  sent (get_thread_id P b).2 = sent b ∧
  processed_messages b ⊆ processed_messages (get_thread_id P b).2 ∧
  (thread_id (get_thread_id P b).2 = thread_id b ∨
   ∃ inbox thread,
     inbox_at P (calls b) = Ok inbox ∧ thread ∈ take 100 inbox ∧
     with_target b thread ∧
     thread_id (get_thread_id P b).2 = Some (DirectThread.id thread)).
Proof.
  unfold get_thread_id, try_except.
  unfold bind at 1 2 3 4 5 6, direct_threads, call.
  destruct (inbox_at P (calls b)) as [inbox|e] eqn:Hinbox; simpl.
  2: { split_and!; [by eexists | by repeat split | done | done | by left]. }
  destruct (scan_threads_effect (take 100 inbox)
              (record_call (CallDirectThreads 100) true b))
    as [Hnone|(thread & Hin & Hwith & Hfalse & Hthread & Hsame & Hsent & Hsub)].
  - rewrite Hnone. simpl.
    split_and!; [by eexists | by repeat split | done | done | by left].
  - destruct (scan_threads P (take 100 inbox)
                (record_call (CallDirectThreads 100) true b)) as [[found|e] b'];
      simpl in *.
    + split_and!; [by eexists | done | done | done |].
      right. by exists inbox, thread.
    + split_and!; [by eexists | done | done | done |].
      right. by exists inbox, thread.
Qed.

(** Whatever the platform answers, [get_thread_id] returns a boolean,
    sends nothing, takes no id out of the set and keeps the settings.
    The thread id changes only to the id of one of the first 100 threads
    of the inbox that has the target among its users. *)
Theorem thread_resolution_effect b :
  (∃ found, (get_thread_id P b).1 = Ok found) ∧
  same_identity b (get_thread_id P b).2 ∧
  sent (get_thread_id P b).2 = sent b ∧
  processed_messages b ⊆ processed_messages (get_thread_id P b).2 ∧
  (thread_id (get_thread_id P b).2 = thread_id b ∨
   ∃ inbox thread,
     inbox_at P (calls b) = Ok inbox ∧ thread ∈ take 100 inbox ∧
     with_target b thread ∧
     thread_id (get_thread_id P b).2 = Some (DirectThread.id thread)).
Proof. apply get_thread_id_effect. Qed.
End Resolution.

(** ** The paths through [login] *)

Section LoginPaths.
Context (P : Platform).
Implicit Types (b : InstagramBot).

(** A saved session that loads and logs in is all [login] uses: it
    returns [True] after these two calls, without a fresh login and
    without writing the session file again. *)
Theorem saved_session_is_enough b :
  session_file_exists P = true →
  load_settings_at P (calls b) = Ok tt →
  login_at P (S (calls b)) = Ok tt →
  login P b =
    (Ok true,
     record_call (CallLogin (username b) (password b)) true
       (record_call (CallLoadSettings "session.json") true b)).
Proof.
  intros Hfile Hload Hlogin.
  unfold login, try_except, session_login, try_except. rewrite Hfile.
  unfold bind, get, load_settings, client_login, call. simpl.
  rewrite Hload. simpl. unfold calls in *. simpl. by rewrite Hlogin.
Qed.

(** A fresh login whose session cannot be saved counts as failed: when
    [client.login] returns and [dump_settings] raises anything but a
    challenge, [login] returns [False]. *)
Theorem unsaved_session_fails_login b e :
  session_file_exists P = false →
  login_at P (calls b) = Ok tt →
  dump_settings_at P (S (calls b)) = Raise e →
  is_ChallengeRequired e = false →
  login P b =
    (Ok false,
     record_call (CallDumpSettings "session.json") false
       (record_call (CallLogin (username b) (password b)) true b)).
Proof.
  intros Hfile Hlogin Hdump Hother.
  unfold login, try_except, session_login, fresh_login, try_except. rewrite Hfile.
  unfold bind, ret, get, client_login, dump_settings, call. simpl.
  rewrite Hlogin. simpl. unfold calls in *. simpl. rewrite Hdump. simpl.
  rewrite Hother. by destruct e.
Qed.

(** When the fresh login meets a challenge (lines 63-72), the code of
    [login] calls [input] once, hands the text it returns to
    [client.challenge_code_handler] with the username, and then saves the
    session; each call is made only when the one before returned.
    [login] returns [True] exactly when the three return, and [False]
    otherwise; all it does to the bot is record these calls, in this
    order, after the failed login.  (What the handler of the library does
    with the text, and whether it asks again, is the library's.) *)
Theorem challenge_needs_code_and_save b msg :
  session_file_exists P = false →
  login_at P (calls b) = Raise (ChallengeRequired msg) →
  (login P b).1 =
    Ok match input_at P (S (calls b)) with
       | Ok verification_code =>
           is_ok (challenge_code_handler_at P (S (S (calls b))) verification_code)
           && is_ok (dump_settings_at P (S (S (S (calls b)))))
       | Raise _ => false
       end ∧
  (login P b).2 =
    (let asked :=
       record_call
         (CallInput "Enter the verification code sent to your phone/email: ")
         (is_ok (input_at P (S (calls b))))
         (record_call (CallLogin (username b) (password b)) false b) in
     match input_at P (S (calls b)) with
     | Ok verification_code =>
         let handled :=
           record_call (CallChallengeCodeHandler (username b) verification_code)
             (is_ok (challenge_code_handler_at P (S (S (calls b))) verification_code))
             asked in
         match challenge_code_handler_at P (S (S (calls b))) verification_code with
         | Ok _ =>
             record_call (CallDumpSettings "session.json")
               (is_ok (dump_settings_at P (S (S (S (calls b)))))) handled
         | Raise _ => handled
         end
     | Raise _ => asked
     end) ∧
  count_calls is_input_call (history (client (login P b).2))
    = S (count_calls is_input_call (history (client b))).
Proof.
  intros Hfile Hlogin.
  unfold login, try_except, session_login, fresh_login, try_except. rewrite Hfile.
  unfold bind, ret, get, client_login, dump_settings, input, challenge_code_handler,
    call. simpl.
  rewrite Hlogin. simpl. unfold calls in *. simpl.
  destruct (input_at P (S (length (history (client b))))) as [code|[]]; simpl; [|done..].
  destruct (challenge_code_handler_at P (S (S (length (history (client b))))) code)
    as [[]|[]]; simpl; [|done..].
  by destruct (dump_settings_at P (S (S (S (length (history (client b))))))) as [[]|[]].
Qed.

(** All [login] does to the bot is add calls to the record. *)
Lemma login_adds_calls b :
  ∃ h,
    (login P b).2
      = with_client {| user_id := user_id (client b);
                       history := h ++ history (client b) |} b ∧
    count_calls is_login_call h ≤ 2 ∧
    count_calls is_input_call h ≤ 1 ∧
    count_calls is_send_call h = 0.
Proof.
  unfold login, try_except, session_login, fresh_login, try_except.
  destruct (session_file_exists P);
    unfold bind, ret, get, load_settings, client_login, dump_settings, input,
      challenge_code_handler, call, calls; simpl;
    split_answers;
    first
      [ by (exists []; split_and!; [destruct b | simpl; lia..])
      | by (eexists [_]; split_and!; [reflexivity | simpl; lia..])
      | by (eexists [_; _]; split_and!; [reflexivity | simpl; lia..])
      | by (eexists [_; _; _]; split_and!; [reflexivity | simpl; lia..])
      | by (eexists [_; _; _; _]; split_and!; [reflexivity | simpl; lia..])
      | by (eexists [_; _; _; _; _]; split_and!; [reflexivity | simpl; lia..])
      | by (eexists [_; _; _; _; _; _]; split_and!; [reflexivity | simpl; lia..])
      | by (eexists [_; _; _; _; _; _; _]; split_and!; [reflexivity | simpl; lia..]) ].
Qed.

(** Whatever the platform answers, [login] tries the password at most
    twice, prompts the operator at most once, sends no message, and
    changes nothing of the bot but the record of calls. *)
Theorem login_tries_password_at_most_twice b :
  ∃ h,
    (login P b).2
      = with_client {| user_id := user_id (client b);
                       history := h ++ history (client b) |} b ∧
    count_calls is_login_call h ≤ 2 ∧
    count_calls is_input_call h ≤ 1 ∧
    count_calls is_send_call h = 0.
Proof. apply login_adds_calls. Qed.
End LoginPaths.

(** ** The loop of [run] *)

Lemma replied_only_refl b : replied_only b b.
Proof. split; [by repeat split|]. by exists []. Qed.

Lemma replied_only_quiet b b' : same_identity b b' → sent b' = sent b → replied_only b b'.
Proof. intros Hsame Hsent. split; [done|]. by exists []. Qed.

Lemma is_reply_of_identity b b' s : same_identity b b' → is_reply_of b s ↔ is_reply_of b' s.
Proof.
  intros (_&_&_&_&Hresponse&Htarget). unfold is_reply_of.
  by rewrite Hresponse, Htarget.
Qed.

Lemma replied_only_trans b1 b2 b3 :
  replied_only b1 b2 → replied_only b2 b3 → replied_only b1 b3.
Proof.
  intros [Hsame1 (new1 & Hsent1 & Hall1)] [Hsame2 (new2 & Hsent2 & Hall2)].
  split; [by eapply same_identity_trans|].
  exists (new2 ++ new1). split.
  - by rewrite Hsent2, Hsent1, (assoc_L (++)).
  - apply Forall_app. split; [|done].
    eapply Forall_impl; [exact Hall2|]. intros s. by apply is_reply_of_identity.
Qed.

Lemma for_each_keeps {A} (R : InstagramBot → InstagramBot → Prop)
    (body : A → M unit) (l : list A) b :
  (∀ b0, R b0 b0) →
  (∀ b1 b2 b3, R b1 b2 → R b2 b3 → R b1 b3) →
  (∀ x b0, R b0 (body x b0).2) →
  R b (for_each body l b).2.
Proof.
  intros Hrefl Htrans Hbody. revert b.
  induction l as [|x l IH]; intros b; [apply Hrefl|].
  simpl. unfold bind. specialize (Hbody x b).
  destruct (body x b) as [[[]|e] b1]; simpl in *; [|done].
  eapply Htrans; [exact Hbody | apply IH].
Qed.

Lemma for_each_returns {A} (body : A → M unit) (l : list A) b :
  (∀ x b0, (body x b0).1 = Ok tt) → (for_each body l b).1 = Ok tt.
Proof.
  intros Hbody. revert b. induction l as [|x l IH]; intros b; [done|].
  simpl. unfold bind. specialize (Hbody x b).
  destruct (body x b) as [[[]|e] b1]; simpl in *; [apply IH | done].
Qed.

Section Loop.
Context (P : Platform) `{PySetOrder}.
Implicit Types (b : InstagramBot).

Lemma check_and_respond_replied_only now b :
  replied_only b (check_and_respond P now b).2.
Proof.
  destruct (check_and_respond_effect P now b)
    as ((?&?&?&?&?&?&?) & (new & Hsent & Hall & _) & _).
  split; [by repeat split|]. by exists new.
Qed.

Lemma get_thread_id_replied_only b : replied_only b (get_thread_id P b).2.
Proof.
  destruct (get_thread_id_effect P b) as (_ & Hsame & Hsent & _).
  by apply replied_only_quiet.
Qed.

(** One turn of the loop, call by call. *)
Lemma run_cycle_unfold now b :
  run_cycle P now b =
    if falsy (thread_id b) then
      if falsy (thread_id (get_thread_id P b).2) then (Ok tt, (get_thread_id P b).2)
      else check_and_respond P now (get_thread_id P b).2
    else check_and_respond P now b.
Proof.
  unfold run_cycle. unfold bind at 1, get at 1.
  destruct (falsy (thread_id b)) eqn:Hfalsy.
  - unfold bind at 1. unfold bind at 1.
    destruct (get_thread_id_effect P b) as ((found & Hfound) & _).
    destruct (get_thread_id P b) as [[found'|e] b1]; simpl in *; [|done].
    unfold bind at 1, get at 1. by destruct (falsy (thread_id b1)).
  - unfold bind at 1. simpl. unfold bind at 1, get at 1. by rewrite Hfalsy.
Qed.

Lemma run_cycle_returns now b : (run_cycle P now b).1 = Ok tt.
Proof.
  rewrite run_cycle_unfold.
  destruct (falsy (thread_id b)); [|apply check_and_respond_returns].
  destruct (falsy _); [done | apply check_and_respond_returns].
Qed.

Lemma run_cycle_replied_only now b : replied_only b (run_cycle P now b).2.
Proof.
  rewrite run_cycle_unfold.
  destruct (falsy (thread_id b)); [|apply check_and_respond_replied_only].
  destruct (falsy _); [apply get_thread_id_replied_only|].
  eapply replied_only_trans;
    [apply get_thread_id_replied_only | apply check_and_respond_replied_only].
Qed.

Lemma run_turn_replied_only time_sleep check_interval now b :
  replied_only b (run_turn P time_sleep check_interval now b).2.
Proof.
  unfold run_turn, bind, sleep.
  pose proof (run_cycle_replied_only now b) as Hcycle.
  pose proof (run_cycle_returns now b) as Hok.
  by destruct (run_cycle P now b) as [[[]|e] b1].
Qed.
End Loop.

Lemma sends_of_app_quiet h h0 :
  count_calls is_send_call h = 0 → sends_of (h ++ h0) = sends_of h0.
Proof.
  induction h as [|[c ok] h IH]; [done|]. simpl.
  destruct c; simpl; try (intros; by apply IH); lia.
Qed.

Lemma count_calls_app p h h0 :
  count_calls p (h ++ h0) = count_calls p h + count_calls p h0.
Proof. induction h as [|[c ok] h IH]; [done|]. simpl. rewrite IH. lia. Qed.

Lemma bind_ext {A B} (m : M A) (k1 k2 : A → M B) b :
  (∀ a b', k1 a b' = k2 a b') → bind m k1 b = bind m k2 b.
Proof. intros Hk. unfold bind. by destruct (m b) as [[a|e] b']. Qed.

Lemma for_each_ext {A} (body1 body2 : A → M unit) (l : list A) b :
  (∀ x b', body1 x b' = body2 x b') → for_each body1 l b = for_each body2 l b.
Proof.
  intros Hbody. revert b. induction l as [|x l IH]; intros b; [done|].
  simpl. unfold bind. rewrite Hbody. by destruct (body2 x b) as [[[]|e] b'].
Qed.

(** What [except Exception] with a handler that only returns makes of a
    body. *)
Lemma caught_state {A} (body : M A) (x : A) b :
  (try_except body [(Exception, λ _, ret x)] b).2 = (body b).2.
Proof. unfold try_except. by destruct (body b) as [[a|e] b']. Qed.

Lemma caught_unit (body : M unit) b :
  (try_except body [(Exception, λ _, ret tt)] b).1 = Ok tt.
Proof. unfold try_except. by destruct (body b) as [[[]|e] b']. Qed.

Section RunFacts.
Context (P : Platform) `{PySetOrder}.
Context (time_sleep : Z → result unit).
Implicit Types (b : InstagramBot).

Lemma login_quiet b :
  (∃ ok, (login P b).1 = Ok ok) ∧
  same_identity b (login P b).2 ∧ sent (login P b).2 = sent b.
Proof.
  split.
  - destruct (login_returns P b) as (ok & b' & Heq). rewrite Heq. by eexists.
  - destruct (login_adds_calls P b) as (h & Heq & _ & _ & Hsends).
    rewrite Heq. split; [by repeat split|].
    unfold sent. simpl. by apply sends_of_app_quiet.
Qed.

Lemma get_target_user_id_quiet b :
  (∃ found, (get_target_user_id P b).1 = Ok found) ∧
  user_id (client (get_target_user_id P b).2) = user_id (client b) ∧
  response_message (get_target_user_id P b).2 = response_message b ∧
  sent (get_target_user_id P b).2 = sent b.
Proof.
  destruct (user_info_by_username_at P (calls b) (target_username b))
    as [user_info|e] eqn:Hlookup.
  - assert (get_target_user_id P b =
              (Ok true,
               with_target_user_id (Some (UserShort.pk user_info))
                 (record_call (CallUserInfoByUsername (target_username b)) true b)))
      as ->.
    { unfold get_target_user_id, try_except.
      unfold bind at 1, get at 1. unfold bind at 1, user_info_by_username, call.
      by rewrite Hlookup. }
    split_and!; [by eexists | done..].
  - assert (get_target_user_id P b =
              (Ok false,
               record_call (CallUserInfoByUsername (target_username b)) false b))
      as ->.
    { unfold get_target_user_id, try_except.
      unfold bind at 1, get at 1. unfold bind at 1, user_info_by_username, call.
      by rewrite Hlookup. }
    split_and!; [by eexists | done..].
Qed.

(** The loop of [run] from the bot the start-up leaves. *)
Lemma loop_replied_only check_interval clock b :
  replied_only b
    (try_except (for_each (run_turn P time_sleep check_interval) clock)
       [(Exception, λ _, ret tt)] b).2.
Proof.
  rewrite caught_state.
  apply (for_each_keeps replied_only);
    [apply replied_only_refl | apply replied_only_trans |].
  intros now b0. apply run_turn_replied_only.
Qed.

(** Whatever the platform answers, whatever the pause does and however
    long it runs, [run] returns normally, and every message it has
    delivered is a reply: the configured response, addressed to the
    looked-up target alone. *)
Theorem run_only_replies check_interval clock b :
  (run_every P time_sleep check_interval clock b).1 = Ok tt ∧
  user_id (client (run_every P time_sleep check_interval clock b).2) = user_id (client b) ∧
  response_message (run_every P time_sleep check_interval clock b).2 = response_message b ∧
  ∃ new,
    sent (run_every P time_sleep check_interval clock b).2 = new ++ sent b ∧
    Forall (is_reply_of (run_every P time_sleep check_interval clock b).2) new.
Proof.
  assert (∃ b',
            run_every P time_sleep check_interval clock b = (Ok tt, b') ∧
            user_id (client b') = user_id (client b) ∧
            response_message b' = response_message b ∧
            ∃ new, sent b' = new ++ sent b ∧ Forall (is_reply_of b') new)
    as (b' & -> & Hrest); [|done].
  unfold run_every. unfold bind at 1.
  destruct (login_quiet b) as ((ok & Hok) & (Hid1&_&_&_&Hresp1&_) & Hsent1).
  destruct (login P b) as [[ok'|e] b1]; simpl in *; [|done].
  destruct ok'; simpl.
  2: { exists b1. split_and!; [done..|]. by exists []. }
  unfold bind at 1.
  destruct (get_target_user_id_quiet b1) as ((found & Hfound) & Hid2 & Hresp2 & Hsent2).
  destruct (get_target_user_id P b1) as [[found'|e] b2]; simpl in *; [|done].
  destruct found'; simpl.
  2: { exists b2. split_and!; [done | congruence | congruence |].
       exists []. split; [simpl; congruence | done]. }
  unfold bind at 1.
  destruct (get_thread_id_effect P b2)
    as ((f & Hf) & (Hid3&_&_&_&Hresp3&_) & Hsent3 & _).
  destruct (get_thread_id P b2) as [[f'|e] b3]; simpl in *; [|done].
  destruct (loop_replied_only check_interval clock b3)
    as [Hsame (new & Hsent & Hall)].
  pose proof (caught_unit (for_each (run_turn P time_sleep check_interval) clock) b3) as Hunit.
  destruct (try_except (for_each (run_turn P time_sleep check_interval) clock)
              [(Exception, λ _, ret tt)] b3) as [r b4]; simpl in *. subst r.
  exists b4. split; [done|].
  destruct Hsame as (Hid4&Hu&Hp&Ht&Hresp4&Htarget4).
  split_and!; [congruence | congruence |].
  exists new. split; [congruence|].
  eapply Forall_impl; [exact Hall|]. intros s. apply is_reply_of_identity.
  by repeat split.
Qed.

(** A failed start stops the bot before it touches the conversation:
    when [login] returns [False] the run ends in the state [login] left,
    and when the lookup of the target returns [False] it ends in the
    state the lookup left; no thread is listed or fetched, nothing is
    sent. *)
Theorem failed_start_ends_the_run check_interval clock b :
  ((login P b).1 = Ok false →
   run_every P time_sleep check_interval clock b = (Ok tt, (login P b).2)) ∧
  ((login P b).1 = Ok true →
   (get_target_user_id P (login P b).2).1 = Ok false →
   run_every P time_sleep check_interval clock b
     = (Ok tt, (get_target_user_id P (login P b).2).2)).
Proof.
  split.
  - intros Hlogin. unfold run_every. unfold bind at 1.
    destruct (login P b) as [[[]|e] b1]; simpl in *; done.
  - intros Hlogin Hfound. unfold run_every. unfold bind at 1.
    destruct (login P b) as [[[]|e] b1]; simpl in *; [|done..].
    unfold bind at 1.
    destruct (get_target_user_id P b1) as [[[]|e] b2]; simpl in *; done.
Qed.

Lemma run_turn_pause check_interval now b :
  time_sleep check_interval = Ok tt →
  run_turn P time_sleep check_interval now b = run_cycle P now b.
Proof.
  intros Hpause. unfold run_turn, bind, sleep. rewrite Hpause.
  by destruct (run_cycle P now b) as [[[]|e] b1].
Qed.

Lemma run_turn_no_pause check_interval e now b :
  time_sleep check_interval = Raise e →
  run_turn P time_sleep check_interval now b = (Raise e, (run_cycle P now b).2).
Proof.
  intros Hpause. unfold run_turn, bind, sleep. rewrite Hpause.
  pose proof (run_cycle_returns P now b) as Hok.
  by destruct (run_cycle P now b) as [[[]|e'] b1].
Qed.

(** The pause of the loop (line 253), whatever [time.sleep] is.  When
    the pause returns for the interval, [run] is the plain sequence of
    poll cycles.  When it raises for the interval (so [time.sleep] does
    for a negative one, and for one beyond the reach of its clock), it
    raises after the first cycle, the handler of [run] takes the
    exception and [run] returns then: the bot makes one poll cycle,
    however long it is left running. *)
Theorem raising_pause_ends_run_after_one_cycle check_interval b :
  (time_sleep check_interval = Ok tt →
   ∀ clock, run_every P time_sleep check_interval clock b = run P clock b) ∧
  (∀ e, time_sleep check_interval = Raise e →
   ∀ now later, run_every P time_sleep check_interval (now :: later) b = run P [now] b).
Proof.
  split.
  - intros Hpos clock. unfold run_every, run.
    apply bind_ext. intros [] b1; [|done]. simpl.
    apply bind_ext. intros [] b2; [|done]. simpl.
    apply bind_ext. intros _ b3. unfold try_except.
    rewrite (for_each_ext (run_turn P time_sleep check_interval) (run_cycle P)); [done|].
    intros now b'. by apply run_turn_pause.
  - intros e Hneg now later. unfold run_every, run.
    apply bind_ext. intros [] b1; [|done]. simpl.
    apply bind_ext. intros [] b2; [|done]. simpl.
    apply bind_ext. intros _ b3. unfold try_except. simpl.
    unfold bind at 1. rewrite (run_turn_no_pause _ e) by done. simpl.
    unfold bind at 1.
    pose proof (run_cycle_returns P now b3) as Hok.
    by destruct (run_cycle P now b3) as [[[]|e'] b4].
Qed.
End RunFacts.

(** ** The thread id, once set *)

Section Sticky.
Context (P : Platform) `{PySetOrder}.
Implicit Types (b : InstagramBot) (message : DirectMessage.t).

Lemma process_message_lists_no_threads now message b :
  count_calls is_threads_call (history (client (process_message P now message b).2))
    = count_calls is_threads_call (history (client b)).
Proof.
  destruct (decide (DirectMessage.id message ∈ processed_messages b)) as [Hin|Hout].
  { by rewrite process_message_seen. }
  destruct (decide (DirectMessage.user_id message = user_id (client b))) as [Hself|Hself].
  { by rewrite process_message_self. }
  destruct (decide (target_user_id b = Some (DirectMessage.user_id message)))
    as [Htarget|Htarget].
  2: { by rewrite process_message_other. }
  destruct (decide (five_minutes_us < time_diff_us now message)%Z) as [Hold|Hfresh].
  { by rewrite process_message_stale. }
  destruct (direct_send_at P (calls b) (response_message b)
              [DirectMessage.user_id message]) as [[]|e] eqn:Hsend.
  - rewrite process_message_send_returns by (done || lia).
    unfold trim_processed, bind, get. simpl. by case_decide.
  - by rewrite (process_message_send_raises P now message b e) by (done || lia).
Qed.

Lemma check_and_respond_lists_no_threads now b :
  count_calls is_threads_call (history (client (check_and_respond P now b).2))
    = count_calls is_threads_call (history (client b)).
Proof.
  destruct (check_and_respond_cases P now b)
    as [Heq|(tid & Htid & [[Hfail Heq]|(thread & Hfetch & Heq)])].
  - by rewrite Heq.
  - by rewrite Heq.
  - rewrite Heq. etrans.
    + apply (for_each_keeps
               (λ b1 b2, count_calls is_threads_call (history (client b2))
                         = count_calls is_threads_call (history (client b1))));
        [done | congruence |].
      intros message b0. apply process_message_lists_no_threads.
    + done.
Qed.

(** Once the thread id is set the bot keeps it for good: every later
    cycle polls that id, and the threads of the inbox are never listed
    again, whatever the fetches of the thread answer. *)
Theorem thread_id_is_never_resolved_again clock b :
  falsy (thread_id b) = false →
  thread_id (for_each (run_cycle P) clock b).2 = thread_id b ∧
  count_calls is_threads_call (history (client (for_each (run_cycle P) clock b).2))
    = count_calls is_threads_call (history (client b)).
Proof.
  revert b. induction clock as [|now clock IH]; intros b Hset; [done|].
  simpl. unfold bind.
  pose proof (run_cycle_returns P now b) as Hok.
  pose proof (run_cycle_unfold P now b) as Hcycle. rewrite Hset in Hcycle.
  destruct (check_and_respond_effect P now b) as ((_&_&_&_&_&_&Hthread) & _).
  pose proof (check_and_respond_lists_no_threads now b) as Hcount.
  rewrite <- Hcycle in Hthread, Hcount.
  destruct (run_cycle P now b) as [[[]|e] b1]; simpl in *; [|done].
  destruct (IH b1) as [IHthread IHcount]; [by rewrite Hthread|].
  split; congruence.
Qed.

(** While there is no thread id and none of the first 100 threads has
    the target among its users, a turn of the loop only lists the
    threads: it fetches no thread and sends nothing. *)
Theorem cycle_without_conversation_only_lists_threads now b inbox :
  falsy (thread_id b) = true →
  inbox_at P (calls b) = Ok inbox →
  Forall (λ thread, ¬ with_target b thread) (take 100 inbox) →
  run_cycle P now b = (Ok tt, record_call (CallDirectThreads 100) true b).
Proof.
  intros Hnone Hinbox Hstrangers.
  assert (get_thread_id P b = (Ok false, record_call (CallDirectThreads 100) true b))
    as Hresolve.
  { unfold get_thread_id, try_except.
    unfold bind at 1, direct_threads, call. rewrite Hinbox. simpl.
    by rewrite scan_threads_none. }
  rewrite run_cycle_unfold, Hnone, Hresolve. simpl. by rewrite Hnone.
Qed.
End Sticky.

(** ** Time zones and the trim *)

Section Zones.
Context (P : Platform) `{PySetOrder}.
Implicit Types (b : InstagramBot) (message : DirectMessage.t).

(** Only the instant of a timestamp matters, not the zone it is written
    in: two timestamps of the same instant, a naive one counting as UTC,
    give the same outcome. *)
Theorem zone_of_timestamp_is_immaterial now message t b :
  utc_us t = utc_us (DirectMessage.timestamp message) →
  process_message P now (with_timestamp t message) b = process_message P now message b.
Proof.
  intros Hinstant.
  assert (time_diff_us now (with_timestamp t message) = time_diff_us now message)
    as Hdiff.
  { destruct t as [wall [offset|]], message as [i u txt [wall0 [offset0|]]];
      unfold time_diff_us, utc_us in *; simpl in *; lia. }
  unfold process_message. simpl. by rewrite Hdiff.
Qed.

(** The trim leaves a set of at most 100 ids alone; of a larger one it
    keeps exactly 100 ids, all of them ids of the set, whatever the
    enumeration order, and touches nothing else. *)
Theorem trim_keeps_100_ids_of_the_set b :
  (size (processed_messages b) ≤ 100 → trim_processed b = (Ok tt, b)) ∧
  (100 < size (processed_messages b) →
   size (processed_messages (trim_processed b).2) = 100 ∧
   processed_messages (trim_processed b).2 ⊆ processed_messages b ∧
   same_settings b (trim_processed b).2 ∧
   sent (trim_processed b).2 = sent b).
Proof.
  split.
  - apply trim_small.
  - intros Hlarge. split_and!.
    + by apply trim_size.
    + apply trim_subseteq.
    + apply trim_settings.
    + apply trim_sent.
Qed.
End Zones.

(** ** The order of the messages *)

Lemma marked_comm (i1 i2 : Z) b : marked i2 (marked i1 b) = marked i1 (marked i2 b).
Proof.
  unfold marked, with_processed_messages. simpl. f_equal.
  by rewrite !(assoc_L (∪)), (comm_L (∪) {[i2]} {[i1]}).
Qed.

Lemma marked_record_call c ok (i : Z) b :
  marked i (record_call c ok b) = record_call c ok (marked i b).
Proof. done. Qed.

(** Two steps commute when their replies, if both reply, are the same
    message to the same user. *)
Lemma act_comm s1 s2 (i1 i2 : Z) b :
  (∀ text1 target1 text2 target2,
     s1 = Answer text1 target1 → s2 = Answer text2 target2 →
     text1 = text2 ∧ target1 = target2) →
  act s2 i2 (act s1 i1 b) = act s1 i1 (act s2 i2 b).
Proof.
  intros Hsame.
  destruct s1 as [| |text1 target1], s2 as [| |text2 target2]; simpl; try done.
  - apply marked_comm.
  - by rewrite !marked_record_call, marked_comm.
  - by rewrite !marked_record_call, marked_comm.
  - destruct (Hsame text1 target1 text2 target2) as [-> ->]; [done..|].
    by rewrite !marked_record_call, marked_comm.
Qed.

Lemma verdict_answer now message b text target :
  verdict now message b = Answer text target →
  text = response_message b ∧ target_user_id b = Some target.
Proof.
  unfold verdict. intros Hverdict.
  destruct (target_user_id b) as [target'|];
    repeat case_bool_decide; by simplify_eq.
Qed.

Lemma verdict_act now message s (i : Z) b :
  i ≠ DirectMessage.id message →
  verdict now message (act s i b) = verdict now message b.
Proof.
  intros Hid. unfold verdict.
  assert (bool_decide (DirectMessage.id message ∈ processed_messages (act s i b))
          = bool_decide (DirectMessage.id message ∈ processed_messages b)) as ->.
  { apply bool_decide_ext. destruct s; simpl; set_solver. }
  by destruct s.
Qed.

Lemma settle_comm now message1 message2 b :
  DirectMessage.id message1 ≠ DirectMessage.id message2 →
  settle now message2 (settle now message1 b) = settle now message1 (settle now message2 b).
Proof.
  intros Hids. unfold settle.
  rewrite !verdict_act by done. apply act_comm.
  intros text1 target1 text2 target2 H1%verdict_answer H2%verdict_answer.
  destruct H1 as [-> H1], H2 as [-> H2]. split; [done | congruence].
Qed.

Lemma settle_size now message b :
  size (processed_messages (settle now message b)) ≤ S (size (processed_messages b)).
Proof.
  unfold settle. destruct (verdict now message b); simpl; [lia | apply size_add_le..].
Qed.

Lemma foldl_settle_perm now (l1 l2 : list DirectMessage.t) :
  l1 ≡ₚ l2 →
  NoDup (DirectMessage.id <$> l1) →
  ∀ b, foldl (λ b' message, settle now message b') b l1
       = foldl (λ b' message, settle now message b') b l2.
Proof.
  induction 1 as [|message l1 l2 Hperm IH|message1 message2 l|l1 l2 l3 Hperm1 IH1 Hperm2 IH2];
    intros Hnodup b.
  - done.
  - simpl. apply IH. by apply NoDup_cons in Hnodup as [_ ?].
  - simpl. f_equal. apply settle_comm.
    apply NoDup_cons in Hnodup as [Hfirst _].
    intros Heq. apply Hfirst. rewrite Heq. by left.
  - rewrite IH1 by done. apply IH2. by rewrite <- Hperm1.
Qed.

Section Order.
Context (P : Platform) `{PySetOrder}.
Implicit Types (b : InstagramBot) (message : DirectMessage.t).

Lemma process_message_settle now message b :
  (∀ n text user_ids, direct_send_at P n text user_ids = Ok tt) →
  size (processed_messages b) < 100 →
  process_message P now message b = (Ok tt, settle now message b).
Proof.
  intros Hsends Hsize. unfold settle, verdict.
  case_bool_decide as Hseen; [simpl; by apply process_message_seen|].
  case_bool_decide as Hself; [simpl; by apply process_message_self|].
  destruct (target_user_id b) as [target|] eqn:Htarget.
  2: { simpl. apply process_message_other; [done | done | congruence]. }
  case_bool_decide as Hfrom.
  2: { simpl. apply process_message_other; [done | done | congruence]. }
  subst target.
  case_bool_decide as Hold; [simpl; by apply process_message_stale|].
  rewrite process_message_send_returns by (done || lia).
  apply trim_small. simpl. rewrite size_add_fresh by done. lia.
Qed.

Lemma for_each_process_settle now (messages : list DirectMessage.t) b :
  (∀ n text user_ids, direct_send_at P n text user_ids = Ok tt) →
  size (processed_messages b) + length messages ≤ 100 →
  for_each (process_message P now) messages b
    = (Ok tt, foldl (λ b' message, settle now message b') b messages).
Proof.
  intros Hsends. revert b.
  induction messages as [|message messages IH]; intros b Hsize; [done|].
  simpl in *. unfold bind. rewrite process_message_settle by (done || lia).
  apply IH. pose proof (settle_size now message b). lia.
Qed.

(** The order in which a thread lists its messages does not matter.
    When every send returns, the ids are distinct and the set has room
    for them, the loop over the messages ends in the same bot, with the
    same replies sent and the same ids marked, for every order. *)
Theorem order_of_messages_is_immaterial now (messages reordered : list DirectMessage.t) b :
  (∀ n text user_ids, direct_send_at P n text user_ids = Ok tt) →
  NoDup (DirectMessage.id <$> messages) →
  messages ≡ₚ reordered →
  size (processed_messages b) + length messages ≤ 100 →
  for_each (process_message P now) reordered b
    = for_each (process_message P now) messages b.
Proof.
  intros Hsends Hnodup Hperm Hsize.
  rewrite !for_each_process_settle by (done || by rewrite <- Hperm).
  f_equal. symmetry. by apply foldl_settle_perm.
Qed.
End Order.

(** ** The further properties at sample inputs *)

Lemma third_party_message_is_left_alone_at_sample :
  process_message (steady mixed_thread) ten_seconds_us (message_at 9 99 0) bot7
    = (Ok tt, bot7).
Proof. apply third_party_message_is_left_alone; by_evaluation. Defined.

Lemma cycle_without_thread_changes_nothing_at_sample :
  check_and_respond (steady mixed_thread) ten_seconds_us bot7 = (Ok tt, bot7) ∧
  check_and_respond (fetch_fails_at 0 mixed_thread) ten_seconds_us bot7_polling
    = (Ok tt,
       record_call (CallDirectThread "340282366841710300949128") false bot7_polling).
Proof.
  split.
  - apply (proj1 (cycle_without_thread_changes_nothing
                    (steady mixed_thread) ten_seconds_us bot7)).
    reflexivity.
  - apply (proj2 (cycle_without_thread_changes_nothing
                    (fetch_fails_at 0 mixed_thread) ten_seconds_us bot7_polling)
             "340282366841710300949128" (OtherError "timed out"));
      by_evaluation.
Defined.

Lemma poll_cycle_only_replies_at_sample :
  same_settings bot7_polling
    (check_and_respond (steady mixed_thread) ten_seconds_us bot7_polling).2.
Proof.
  apply (proj1 (poll_cycle_only_replies (steady mixed_thread) ten_seconds_us bot7_polling)).
Defined.

Lemma settled_thread_is_not_answered_again_at_sample :
  check_and_respond (steady mixed_thread) (2 * ten_seconds_us)
    (check_and_respond (steady mixed_thread) ten_seconds_us bot7_polling).2
  = (Ok tt,
     record_call (CallDirectThread "340282366841710300949128") true
       (check_and_respond (steady mixed_thread) ten_seconds_us bot7_polling).2).
Proof.
  apply (settled_thread_is_not_answered_again (steady mixed_thread)
           ten_seconds_us (2 * ten_seconds_us) bot7_polling
           "340282366841710300949128" mixed_thread mixed_thread);
    by_evaluation.
Defined.

Lemma order_of_messages_is_immaterial_at_sample :
  for_each (process_message (steady mixed_thread) ten_seconds_us)
    [message_at 1 42 0; message_at 2 7 0; message_at 3 42 0] bot7_polling
  = for_each (process_message (steady mixed_thread) ten_seconds_us)
      [message_at 2 7 0; message_at 1 42 0; message_at 3 42 0] bot7_polling.
Proof.
  apply order_of_messages_is_immaterial; try by_evaluation.
  apply perm_swap.
Defined.

Lemma target_lookup_sets_target_or_leaves_it_at_sample :
  get_target_user_id (steady mixed_thread) bot0
    = (Ok true,
       with_target_user_id (Some 42%Z)
         (record_call (CallUserInfoByUsername "friend") true bot0)) ∧
  get_target_user_id unknown_target bot7
    = (Ok false, record_call (CallUserInfoByUsername "friend") false bot7).
Proof.
  split.
  - apply (proj1 (target_lookup_sets_target_or_leaves_it (steady mixed_thread) bot0)
             {| UserShort.pk := 42%Z |}).
    reflexivity.
  - apply (proj2 (target_lookup_sets_target_or_leaves_it unknown_target bot7)
             (OtherError "User not found")).
    reflexivity.
Defined.

Lemma thread_resolution_without_match_at_sample :
  get_thread_id (steady stranger_thread) bot7
    = (Ok false, record_call (CallDirectThreads 100) true bot7) ∧
  get_thread_id inbox_down bot7
    = (Ok false, record_call (CallDirectThreads 100) false bot7).
Proof.
  split.
  - apply (proj1 (thread_resolution_without_match (steady stranger_thread) bot7)
             [stranger_thread]); [reflexivity|].
    unfold with_target. by_evaluation.
  - apply (proj2 (thread_resolution_without_match inbox_down bot7)
             (OtherError "timed out")).
    reflexivity.
Defined.

Lemma thread_resolution_seeds_first_match_at_sample :
  (get_thread_id (steady mixed_thread) bot7).1 = Ok true ∧
  thread_id (get_thread_id (steady mixed_thread) bot7).2
    = Some (DirectThread.id mixed_thread) ∧
  processed_messages (get_thread_id (steady mixed_thread) bot7).2
    = list_to_set (DirectMessage.id <$> DirectThread.messages mixed_thread)
        ∪ processed_messages bot7 ∧
  sent (get_thread_id (steady mixed_thread) bot7).2 = sent bot7.
Proof.
  apply (thread_resolution_seeds_first_match (steady mixed_thread) bot7
           [mixed_thread] [] mixed_thread [] mixed_thread);
    by_evaluation.
Defined.

Lemma get_thread_id_fetch_raises_at_sample :
  get_thread_id (fetch_fails_at 1 mixed_thread) bot7
    = (Ok false,
       record_call (CallDirectThread (DirectThread.id mixed_thread)) false
         (with_thread_id (Some (DirectThread.id mixed_thread))
            (record_call (CallDirectThreads 100) true bot7))).
Proof.
  apply (get_thread_id_fetch_raises (fetch_fails_at 1 mixed_thread) bot7
           [mixed_thread] [] mixed_thread [] (OtherError "timed out"));
    by_evaluation.
Defined.

Lemma saved_session_is_enough_at_sample :
  login saved_session bot0
    = (Ok true,
       record_call (CallLogin "bot" "secret") true
         (record_call (CallLoadSettings "session.json") true bot0)).
Proof. apply saved_session_is_enough; reflexivity. Defined.

Lemma unsaved_session_fails_login_at_sample :
  login read_only_disk bot0
    = (Ok false,
       record_call (CallDumpSettings "session.json") false
         (record_call (CallLogin "bot" "secret") true bot0)).
Proof.
  apply (unsaved_session_fails_login read_only_disk bot0 (OtherError "Permission denied"));
    reflexivity.
Defined.

Lemma challenge_needs_code_and_save_at_sample :
  (login challenged bot0).1 = Ok true ∧
  history (client (login challenged bot0).2)
    = [(CallDumpSettings "session.json", true);
       (CallChallengeCodeHandler "bot" "123456", true);
       (CallInput "Enter the verification code sent to your phone/email: ", true);
       (CallLogin "bot" "secret", false)] ∧
  count_calls is_input_call (history (client (login challenged bot0).2)) = 1.
Proof.
  destruct (challenge_needs_code_and_save challenged bot0 "challenge_required")
    as (Hresult & Hstate & Hasked); [reflexivity|reflexivity|].
  split_and!; [exact Hresult | by rewrite Hstate | exact Hasked].
Defined.

Lemma failed_start_ends_the_run_at_sample :
  run_every wrong_password sample_sleep 10 [ten_seconds_us] bot0
    = (Ok tt, (login wrong_password bot0).2) ∧
  run_every unknown_target sample_sleep 10 [ten_seconds_us] bot0
    = (Ok tt, (get_target_user_id unknown_target (login unknown_target bot0).2).2).
Proof.
  split.
  - apply (proj1 (failed_start_ends_the_run wrong_password sample_sleep 10
                    [ten_seconds_us] bot0)).
    reflexivity.
  - apply (proj2 (failed_start_ends_the_run unknown_target sample_sleep 10
                    [ten_seconds_us] bot0));
      reflexivity.
Defined.

Lemma raising_pause_ends_run_after_one_cycle_at_sample :
  run_every (steady mixed_thread) sample_sleep 10
      [ten_seconds_us; (2 * ten_seconds_us)%Z] bot0
    = run (steady mixed_thread) [ten_seconds_us; (2 * ten_seconds_us)%Z] bot0 ∧
  run_every (steady mixed_thread) sample_sleep (-5)
      [ten_seconds_us; (2 * ten_seconds_us)%Z] bot0
    = run (steady mixed_thread) [ten_seconds_us] bot0 ∧
  run_every (steady mixed_thread) sample_sleep 10000000000
      [ten_seconds_us; (2 * ten_seconds_us)%Z] bot0
    = run (steady mixed_thread) [ten_seconds_us] bot0.
Proof.
  split_and!.
  - apply (proj1 (raising_pause_ends_run_after_one_cycle
                    (steady mixed_thread) sample_sleep 10 bot0)).
    reflexivity.
  - apply (proj2 (raising_pause_ends_run_after_one_cycle
                    (steady mixed_thread) sample_sleep (-5) bot0)
             (ValueError "sleep length must be non-negative")).
    reflexivity.
  - apply (proj2 (raising_pause_ends_run_after_one_cycle
                    (steady mixed_thread) sample_sleep 10000000000 bot0)
             (OtherError "timestamp too large to convert to C _PyTime_t")).
    reflexivity.
Defined.

Lemma thread_id_is_never_resolved_again_at_sample :
  thread_id
    (for_each (run_cycle (steady mixed_thread)) [ten_seconds_us; (2 * ten_seconds_us)%Z]
       bot7_polling).2 = thread_id bot7_polling ∧
  count_calls is_threads_call
    (history (client (for_each (run_cycle (steady mixed_thread))
                        [ten_seconds_us; (2 * ten_seconds_us)%Z] bot7_polling).2))
    = count_calls is_threads_call (history (client bot7_polling)).
Proof. apply thread_id_is_never_resolved_again. reflexivity. Defined.

Lemma cycle_without_conversation_only_lists_threads_at_sample :
  run_cycle (steady stranger_thread) ten_seconds_us bot7
    = (Ok tt, record_call (CallDirectThreads 100) true bot7).
Proof.
  apply (cycle_without_conversation_only_lists_threads (steady stranger_thread)
           ten_seconds_us bot7 [stranger_thread]); try reflexivity.
  unfold with_target. by_evaluation.
Defined.

(** 02:00 at two hours east of UTC is midnight UTC. *)
Lemma zone_of_timestamp_is_immaterial_at_sample :
  process_message (steady mixed_thread) ten_seconds_us
    (with_timestamp {| wall_us := 7200000000; tzinfo := Some 7200000000%Z |}
       (message_at 1 42 0)) bot7
  = process_message (steady mixed_thread) ten_seconds_us (message_at 1 42 0) bot7.
Proof. apply zone_of_timestamp_is_immaterial. reflexivity. Defined.

Lemma trim_keeps_100_ids_of_the_set_at_sample :
  trim_processed bot7_full = (Ok tt, bot7_full) ∧
  size (processed_messages (trim_processed (marked 101 bot7_full)).2) = 100.
Proof.
  split.
  - apply (proj1 (trim_keeps_100_ids_of_the_set bot7_full)). by_evaluation.
  - apply (proj2 (trim_keeps_100_ids_of_the_set (marked 101 bot7_full))).
    by_evaluation.
Defined.

Lemma reply_caps_processed_at_sample :
  size (processed_messages
          (process_message (steady mixed_thread) ten_seconds_us
             (message_at 101 42 0) bot7_full).2) ≤ 100.
Proof. apply reply_caps_processed; by_evaluation. Defined.
